(** * Billzzy / GoWhatsApp: courier classification, tracking workflow and
      WhatsApp delivery

    A shallow embedding of

    - [src/app/api/billing/tracking/route.ts]
      ([determineShippingPartner], [getTrackingUrl], the [POST] handler), and
    - [src/lib/msg-whatsapp.ts]
      ([sendBillingWhatsApp], [sendBillingWhatsAppWithRetry],
      [formatBillingMessage]),

    together with the properties the specification states about them.

    JavaScript strings are modelled as [string]; every prefix the code tests
    is ASCII, so a byte-wise prefix test agrees with [startsWith] on UTF-16
    code units. *)

From Stdlib Require Import ZArith Ascii String List Bool Lia.
From stdpp Require Import base option list strings gmap pretty.

Local Open Scope string_scope.

(* ===================================================================== *)
(** * JavaScript effects: exceptions over an explicit world              *)
(* ===================================================================== *)

Module Js.

(** A thrown value: an [Error] instance (with its [name] and [message]);
    some other value that is neither [null] nor [undefined], of which the
    string conversion and the [message] property (when it has one) are
    observed; or [null] / [undefined]. *)
Inductive thrown : Type :=
| ErrorObj (name message : string)
| NonError (shown : string) (message : option string)
| Nullish (undefined : bool).

(** [new Error(msg)] *)
Definition mkError (msg : string) : thrown := ErrorObj "Error" msg.

(** The [TypeError] of reading a property of [null] or [undefined] (in
    the wording of Node). *)
Definition nullishRead (undefined : bool) (property : string) : thrown :=
  ErrorObj "TypeError"
    ("Cannot read properties of "
     ++ (if undefined then "undefined" else "null")
     ++ " (reading '" ++ property ++ "')").

(** String conversion as a template literal performs it
    ([Error.prototype.toString] for an [Error]). *)
Definition toStringThrown (e : thrown) : string :=
  match e with
  | ErrorObj n m =>
      if String.eqb n "" then m
      else if String.eqb m "" then n
      else n ++ ": " ++ m
  | NonError s _ => s
  | Nullish undefined => if undefined then "undefined" else "null"
  end.

Inductive outcome (A : Type) : Type :=
| Returned (a : A)
| Thrown (e : thrown).
Arguments Returned {A} a.
Arguments Thrown {A} e.

(** [error.message]: the message of an [Error], the [message] property of
    another value when it has one, and a [TypeError] of its own when the
    value is [null] or [undefined]. *)
Definition messageOf (e : thrown) : outcome (option string) :=
  match e with
  | ErrorObj _ m => Returned (Some m)
  | NonError _ m => Returned m
  | Nullish undefined => Thrown (nullishRead undefined "message")
  end.

(** [Number.MAX_SAFE_INTEGER], 2 ** 53 - 1: up to it a counter stepped
    by [++] takes every whole number in turn (from 2 ** 53 on, adding 1 no
    longer changes it). *)
Definition MAX_SAFE_INTEGER : Z := 9007199254740991.

(** A computation over a world [W]: it returns or throws, and leaves a
    world behind in both cases (effects performed before a [throw] stay). *)
Definition M (W A : Type) : Type := W -> outcome A * W.

Definition ret {W A} (a : A) : M W A := fun w => (Returned a, w).

Definition throw {W A} (e : thrown) : M W A := fun w => (Thrown e, w).

Definition bind {W A B} (c : M W A) (k : A -> M W B) : M W B :=
  fun w =>
    match c w with
    | (Returned a, w') => k a w'
    | (Thrown e, w') => (Thrown e, w')
    end.

(** [try { c } catch (error) { h error }] *)
Definition tryCatch {W A} (c : M W A) (h : thrown -> M W A) : M W A :=
  fun w =>
    match c w with
    | (Returned a, w') => (Returned a, w')
    | (Thrown e, w') => h e w'
    end.

(** A synchronous call that touches no state but may throw. *)
Definition lift {W A} (o : outcome A) : M W A := fun w => (o, w).

(** Read something off the world (the clock, for instance). *)
Definition gets {W A} (f : W -> A) : M W A := fun w => (Returned (f w), w).

(** Truthiness of a possibly absent string: [undefined], [null] and the
    empty string are falsy. *)
Definition truthy (o : option string) : bool :=
  match o with
  | Some s => negb (String.eqb s "")
  | None => false
  end.

(** [a || b] on a possibly missing string: [undefined] and the empty string
    are the falsy cases. *)
Definition or_else (a : option string) (b : string) : string :=
  match a with
  | Some s => if String.eqb s "" then b else s
  | None => b
  end.

End Js.

Notation "'let*' x ':=' c 'in' k" :=
  (Js.bind c (fun x => k))
  (at level 10, x pattern, c at level 100, k at level 200).

(* ===================================================================== *)
(** * Courier classification (route.ts, lines 7-37)                       *)
(* ===================================================================== *)

Module Courier.
Import Js.

(** [s.startsWith(p)] *)
Fixpoint startsWith (s p : string) {struct p} : bool :=
  match p with
  | EmptyString => true
  | String a p' =>
      match s with
      | EmptyString => false
      | String b s' => Ascii.eqb a b && startsWith s' p'
      end
  end.

(** The regular expression [/^10(?!000)/]: the text begins with "10" and the
    three characters after it are not "000". *)
Definition test_10_not_000 (s : string) : bool :=
  match s with
  | String a (String b rest) =>
      Ascii.eqb a "1" && Ascii.eqb b "0" && negb (startsWith rest "000")
  | _ => false
  end.

Definition determineShippingPartner (trackingNumber : string) : string :=
  if startsWith trackingNumber "CT" then "INDIA POST" else
  if startsWith trackingNumber "C1" then "DTDC" else
  if startsWith trackingNumber "58" then "ST COURIER" else
  if startsWith trackingNumber "500" || startsWith trackingNumber "10000"
     || test_10_not_000 trackingNumber then "TRACKON" else
  if startsWith trackingNumber "SM" then "SINGPOST" else
  if startsWith trackingNumber "33" then "ECOM" else
  if startsWith trackingNumber "SR" || startsWith trackingNumber "EP"
  then "EKART" else
  if startsWith trackingNumber "14" then "XPRESSBEES" else
  if startsWith trackingNumber "S" || startsWith trackingNumber "1"
  then "SHIP ROCKET" else
  if startsWith trackingNumber "7" then "DELHIVERY" else
  if startsWith trackingNumber "JT" then "J&T" else
  if startsWith trackingNumber "TRZ" then "PROFESSIONAL COURIER" else
  "Unknown".

(** The own properties of the object literal [urls] of [getTrackingUrl]:
    a map from courier label to tracking page. *)
Definition urls : gmap string string :=
  list_to_map
    [ ("INDIA POST",
       "https://www.indiapost.gov.in/_layouts/15/dop.portal.tracking/trackconsignment.aspx");
      ("ST COURIER", "https://stcourier.com/track/shipment");
      ("DTDC", "https://www.dtdc.in/track");
      ("TRACKON", "https://trackon.in");
      ("SHIP ROCKET", "https://www.shiprocket.in/shipment-tracking");
      ("DELHIVERY", "https://www.delhivery.com/track/package");
      ("ECOM", "https://ecomexpress.in/tracking");
      ("EKART", "https://ekartlogistics.com/track");
      ("XPRESSBEES", "https://www.xpressbees.com/track");
      ("PROFESSIONAL COURIER", "https://www.tpcindia.com/") ].

Definition genericTrackingUrl : string := "https://vaseegrahveda.com/tracking".

(** The names of the members every object literal inherits from
    [Object.prototype]: indexed by one of these, the object literal gives
    the inherited member (a function or an object, not a string), not
    [undefined]. *)
Definition objectPrototypeMembers : list string :=
  [ "constructor"; "hasOwnProperty"; "isPrototypeOf";
    "propertyIsEnumerable"; "toLocaleString"; "toString"; "valueOf";
    "__proto__"; "__defineGetter__"; "__defineSetter__";
    "__lookupGetter__"; "__lookupSetter__" ].

(** [urls[partner] || generic], for a label that is not the name of an
    inherited member: for such a label the lookup gives the own property
    or [undefined].  (For the labels of [objectPrototypeMembers] the
    function returns the inherited member; the classifier returns none of
    them.) *)
Definition getTrackingUrl (partner number : string) : string :=
  or_else (urls !! partner) genericTrackingUrl.

(** The classifier as the specification words it: an ordered table of
    (predicate, label) pairs, the first match winning. *)
Definition rules : list ((string -> bool) * string) :=
  [ (fun t => startsWith t "CT", "INDIA POST");
    (fun t => startsWith t "C1", "DTDC");
    (fun t => startsWith t "58", "ST COURIER");
    (fun t => startsWith t "500" || startsWith t "10000" || test_10_not_000 t,
     "TRACKON");
    (fun t => startsWith t "SM", "SINGPOST");
    (fun t => startsWith t "33", "ECOM");
    (fun t => startsWith t "SR" || startsWith t "EP", "EKART");
    (fun t => startsWith t "14", "XPRESSBEES");
    (fun t => startsWith t "S" || startsWith t "1", "SHIP ROCKET");
    (fun t => startsWith t "7", "DELHIVERY");
    (fun t => startsWith t "JT", "J&T");
    (fun t => startsWith t "TRZ", "PROFESSIONAL COURIER") ].

Definition firstMatch (trackingNumber : string) : string :=
  match List.find (fun r => fst r trackingNumber) rules with
  | Some r => snd r
  | None => "Unknown"
  end.

(** Every prefix that some rule tests. *)
Definition listedPrefixes : list string :=
  [ "CT"; "C1"; "58"; "500"; "10000"; "10"; "SM"; "33"; "SR"; "EP"; "14";
    "S"; "1"; "7"; "JT"; "TRZ" ].

(** Labels that have an entry of their own in [urls]. *)
Definition mappedCouriers : list string :=
  [ "INDIA POST"; "ST COURIER"; "DTDC"; "TRACKON"; "SHIP ROCKET";
    "DELHIVERY"; "ECOM"; "EKART"; "XPRESSBEES"; "PROFESSIONAL COURIER" ].

(** Labels the classifier produces that have no entry in [urls]. *)
Definition unmappedLabels : list string := [ "SINGPOST"; "J&T"; "Unknown" ].

End Courier.

(* ===================================================================== *)
(** * WhatsApp delivery (msg-whatsapp.ts)                                 *)
(* ===================================================================== *)

Module WhatsApp.
Import Js.

Definition nl : string := String (ascii_of_nat 10) EmptyString.

(** [new Date()] as far as the code reads it. *)
Record Clock : Type := {
  toISOString : string;
  toLocaleDateString : string
}.

Section Types.
(** JavaScript numbers that the code only passes along and prints. *)
Context {Num : Type}.

Record ShippingMethod : Type := {
  sm_name : string;
  sm_type : string;
  sm_cost : Num
}.

Record BillingWhatsAppParams : Type := {
  phone : string;
  companyName : string;
  products : string;
  amount : Num;
  address : string;
  organisationId : Num;
  billNo : Num;
  shippingMethod : option ShippingMethod
}.

(** The argument of [formatBillingMessage]; [template] is [None] when the
    caller leaves it out.  [shippingMethod] is declared [any] there; it is
    read as the [{ name, type, cost }] object of [BillingWhatsAppParams]. *)
Record FormatParams : Type := {
  f_companyName : string;
  f_billNo : string;
  f_products : string;
  f_amount : Num;
  f_address : string;
  f_shippingMethod : option ShippingMethod;
  f_template : option string
}.
End Types.
Arguments ShippingMethod : clear implicits.
Arguments BillingWhatsAppParams : clear implicits.
Arguments FormatParams : clear implicits.

(** The body handed to [JSON.stringify] for the provider call. *)
Record MessageBody : Type := {
  mb_phone : string;
  mb_type : string;
  mb_message : string
}.

Record FetchRequest : Type := {
  fr_url : string;
  fr_method : string;
  fr_contentType : string;
  fr_authorization : string;
  fr_body : MessageBody
}.

(** A [fetch] response: [res.ok], [res.status], and what [res.text()] and
    [res.json()] give (either may throw). *)
Record FetchResponse (Json : Type) : Type := {
  res_ok : bool;
  res_status : Z;
  res_text : outcome string;
  res_json : outcome Json
}.
Arguments res_ok {Json} _.
Arguments res_status {Json} _.
Arguments res_text {Json} _.
Arguments res_json {Json} _.

(** What [sendBillingWhatsApp] returns: the object with [success: true]
    or the one with [success: false]. *)
Inductive SendResult (Json : Type) : Type :=
| SendOk (data : Json) (messageId : option Json)
| SendFailed (error : string) (timestamp : string).
Arguments SendOk {Json} data messageId.
Arguments SendFailed {Json} error timestamp.

Definition success {Json} (r : SendResult Json) : bool :=
  match r with
  | SendOk _ _ => true
  | SendFailed _ _ => false
  end.

(** Collaborators that only compute: number printing and upper-casing of
    the runtime, and the address splitter of [@/lib/utils] (three lines,
    unless it throws). *)
Class Text (Num : Type) : Type := {
  numToString : Num -> string;
  toUpperCase : string -> string;
  splitAddressIntoThreeParts : string -> outcome (string * string * string)
}.

(** A [setTimeout] delay: a whole number of milliseconds, or [Infinity]. *)
Inductive Delay : Type :=
| Millis (ms : Z)
| InfiniteDelay.

(** [Math.pow(2, attempt) * 1000] for a whole [attempt]: the product is
    exact in a double up to attempt 1014 (125 * 2 ** 1017 is below
    2 ** 1024) and overflows to [Infinity] from attempt 1015 on. *)
Definition backoffDelay (attempt : Z) : Delay :=
  if (attempt <=? 1014)%Z then Millis (2 ^ attempt * 1000)%Z
  else InfiniteDelay.

(** Collaborators that act on the world: the token provider of
    [./razorpayToken], [fetch], the clock and the timer. *)
Class Provider (W Num Json : Type) : Type := {
  getValidAccessToken : Num -> M W (option string);
  fetch : FetchRequest -> M W (FetchResponse Json);
  (** [responseData.message_id || null]; reading a property of [null]
      throws. *)
  message_id : Json -> outcome (option Json);
  (** [new Date()] *)
  now : W -> Clock;
  (** [await new Promise(resolve => setTimeout(resolve, delay))] *)
  sleep : Delay -> W -> W
}.

Definition isDigit (c : ascii) : bool :=
  (48 <=? nat_of_ascii c)%nat && (nat_of_ascii c <=? 57)%nat.

(** [phone.replace(/[^\d]/g, '')] *)
Fixpoint stripNonDigits (s : string) : string :=
  match s with
  | EmptyString => EmptyString
  | String c rest =>
      if isDigit c then String c (stripNonDigits rest)
      else stripNonDigits rest
  end.

Section Compose.
Context {Num : Type} `{T : Text Num}.

Definition shippingLineOf (sm : option (ShippingMethod Num)) : string :=
  match sm with
  | Some m =>
      nl ++ "🚚 Shipping: " ++ sm_name m ++ " (" ++ sm_type m ++ ") - ₹"
         ++ numToString (sm_cost m)
  | None => ""
  end.

(** The default template (line 177). *)
Definition defaultMessage (company bill prods amt shippingLine
                           line1 line2 line3 : string) : string :=
  "🧾 *" ++ company ++ " Bill #" ++ bill ++ "*" ++ nl ++ nl
  ++ "🛒 *Items:*" ++ nl ++ prods ++ nl ++ nl
  ++ "💰 *Total:* ₹" ++ amt ++ shippingLine ++ nl ++ nl
  ++ "🏠 *Delivery Address:*" ++ nl
  ++ line1 ++ nl ++ line2 ++ nl ++ line3 ++ nl ++ nl
  ++ "🙏 Thank you for shopping with us!".

(** [clock] is what [new Date()] reads when the function is called. *)
Definition formatBillingMessage (clock : Clock) (p : FormatParams Num)
  : outcome string :=
  match splitAddressIntoThreeParts (f_address p) with
  | Thrown e => Thrown e
  | Returned (line1, line2, line3) =>
      let shippingLine := shippingLineOf (f_shippingMethod p) in
      let template := default "default" (f_template p) in
      Returned
        (if String.eqb template "compact" then
           "🧾 " ++ f_companyName p ++ " Bill #" ++ f_billNo p ++ nl
           ++ "💰 Total: ₹" ++ numToString (f_amount p) ++ shippingLine ++ nl
           ++ "📍 " ++ line1 ++ nl
           ++ "Thank you! 🙏"
         else if String.eqb template "detailed" then
           "🧾 *INVOICE FROM " ++ toUpperCase (f_companyName p) ++ "*"
           ++ nl ++ nl
           ++ "📋 *Bill Number:* " ++ f_billNo p ++ nl
           ++ "📅 *Date:* " ++ toLocaleDateString clock ++ nl ++ nl
           ++ "🛒 *ITEMS PURCHASED:*" ++ nl ++ f_products p ++ nl ++ nl
           ++ "💰 *TOTAL AMOUNT:* ₹" ++ numToString (f_amount p)
           ++ shippingLine ++ nl ++ nl
           ++ "🏠 *DELIVERY ADDRESS:*" ++ nl
           ++ line1 ++ nl ++ line2 ++ nl ++ line3 ++ nl ++ nl
           ++ "✅ *Order Status:* Confirmed" ++ nl
           ++ "🙏 Thank you for choosing " ++ f_companyName p ++ "!"
         else
           defaultMessage (f_companyName p) (f_billNo p) (f_products p)
                          (numToString (f_amount p)) shippingLine
                          line1 line2 line3)
  end.

End Compose.

(** The same input under another template tag. *)
Definition withTemplate {Num : Type} (p : FormatParams Num)
    (tag : option string) : FormatParams Num :=
  {| f_companyName := f_companyName p;
     f_billNo := f_billNo p;
     f_products := f_products p;
     f_amount := f_amount p;
     f_address := f_address p;
     f_shippingMethod := f_shippingMethod p;
     f_template := tag |}.

Section Delivery.
Context {W Num Json : Type} `{T : Text Num} `{P : Provider W Num Json}.

Definition sendUrl : string := "https://app.gowhatsapp.in/api/v2/message/send".

(** The shipping line of lines 44-46. *)
Definition billingShippingLine (p : BillingWhatsAppParams Num) : string :=
  match shippingMethod p with
  | Some m =>
      nl ++ "🚚 Shipping: " ++ sm_name m ++ " (" ++ sm_type m ++ ") - ₹"
         ++ numToString (sm_cost m)
  | None => ""
  end.

(** The message of line 49 for a bill. *)
Definition billingMessage (p : BillingWhatsAppParams Num)
    (line1 line2 line3 : string) : string :=
  "🧾 *" ++ companyName p ++ " Bill #" ++ numToString (billNo p) ++ "*"
  ++ nl ++ nl
  ++ "🛒 *Items:*" ++ nl ++ products p ++ nl ++ nl
  ++ "💰 *Total:* ₹" ++ numToString (amount p) ++ billingShippingLine p
  ++ nl ++ nl
  ++ "🏠 *Delivery Address:*" ++ nl
  ++ line1 ++ nl ++ line2 ++ nl ++ line3 ++ nl ++ nl
  ++ "🙏 Thank you for shopping with us!".

(** The request of lines 58-69. *)
Definition billingRequest (accessToken : option string)
    (formattedPhone message : string) : FetchRequest :=
  {| fr_url := sendUrl;
     fr_method := "POST";
     fr_contentType := "application/json";
     fr_authorization := "Bearer " ++ default "" accessToken;
     fr_body := {| mb_phone := formattedPhone;
                   mb_type := "text";
                   mb_message := message |} |}.

(** The body of the [try] block of [sendBillingWhatsApp]. *)
Definition sendBillingWhatsApp_try (p : BillingWhatsAppParams Num)
  : M W (SendResult Json) :=
  let* accessToken := getValidAccessToken (organisationId p) in
  if negb (truthy accessToken)
  then throw (mkError "No valid access token found for organisation")
  else
  let* (line1, line2, line3) :=
    lift (splitAddressIntoThreeParts (address p)) in
  let message := billingMessage p line1 line2 line3 in
  let formattedPhone := stripNonDigits (phone p) in
  if (String.length formattedPhone <? 10)%nat
  then throw (mkError "Invalid phone number format")
  else
  let* res := fetch (billingRequest accessToken formattedPhone message) in
  if negb (res_ok res)
  then
    let* errorText := lift (res_text res) in
    throw (mkError ("WhatsApp API error: " ++ pretty (res_status res)
                    ++ " - " ++ errorText))
  else
  let* responseData := lift (res_json res) in
  let* mid := lift (message_id responseData) in
  ret (SendOk responseData mid).

(** [error instanceof Error ? error.message : 'Unknown error occurred'] *)
Definition caughtMessage (error : thrown) : string :=
  match error with
  | ErrorObj _ m => m
  | NonError _ _ => "Unknown error occurred"
  | Nullish _ => "Unknown error occurred"
  end.

(** The [catch] block: every thrown value becomes a failure result. *)
Definition sendBillingWhatsApp_catch (error : thrown)
  : M W (SendResult Json) :=
  let* clock := gets now in
  ret (SendFailed (caughtMessage error) (toISOString clock)).

Definition sendBillingWhatsApp (p : BillingWhatsAppParams Num)
  : M W (SendResult Json) :=
  tryCatch (sendBillingWhatsApp_try p) sendBillingWhatsApp_catch.

End Delivery.

(** The variable [lastError] of the retry wrapper: still [undefined], the
    [error] text of a failure result, or a caught exception. *)
Inductive LastError : Type :=
| LastUndefined
| LastMessage (error : string)
| LastThrown (e : thrown).

(** [`${lastError}`] *)
Definition showLastError (le : LastError) : string :=
  match le with
  | LastUndefined => "undefined"
  | LastMessage s => s
  | LastThrown e => toStringThrown e
  end.

(** [result.error] *)
Definition errorOf {Json} (r : SendResult Json) : LastError :=
  match r with
  | SendFailed e _ => LastMessage e
  | SendOk _ _ => LastUndefined
  end.

Section Retry.
Context {W Json : Type}.
(** The timer, the awaited delivery call and the attempt limit (a whole
    number: [attempt++] counts exactly up to 2 ** 53). *)
Variable sleep : Delay -> W -> W.
Variable send : M W (SendResult Json).
Variable maxRetries : Z.

(** One pass through the loop body.  [inl result]: the function returns
    [result]; [inr e]: the loop goes on, with [lastError = e]. *)
Definition attemptOnce (attempt : Z)
  : M W (SendResult Json + LastError) :=
  tryCatch
    (let* result := send in
     if success result then ret (inl result)
     else
       let lastError := errorOf result in
       if (attempt <? maxRetries)%Z
       then fun w => (Returned (inr lastError),
                      sleep (backoffDelay attempt) w)
       else ret (inr lastError))
    (fun error => ret (inr (LastThrown error))).

Definition terminalError (lastError : LastError) : thrown :=
  mkError ("WhatsApp failed after " ++ pretty maxRetries
           ++ " attempts. Last error: " ++ showLastError lastError).

(** [for (let attempt = 1; attempt <= maxRetries; attempt++)], as a
    recursion over the attempt numbers still to come, followed by the
    final [throw]. *)
Fixpoint retryLoop (attempts : list Z) (lastError : LastError)
  : M W (SendResult Json) :=
  match attempts with
  | [] => throw (terminalError lastError)
  | attempt :: rest =>
      let* r := attemptOnce attempt in
      match r with
      | inl result => ret result
      | inr lastError' => retryLoop rest lastError'
      end
  end.

Definition retryWith : M W (SendResult Json) :=
  retryLoop (seqZ 1 maxRetries) LastUndefined.

End Retry.

(** [maxRetries] is [None] when the caller leaves it out ([= 3]). *)
Definition sendBillingWhatsAppWithRetry {W Num Json : Type}
    `{T : Text Num} `{P : Provider W Num Json}
    (p : BillingWhatsAppParams Num) (maxRetries : option Z)
  : M W (SendResult Json) :=
  retryWith sleep (sendBillingWhatsApp p) (default 3%Z maxRetries).

(** Instrumentation for statements about calls: run [c] and append what it
    did (returned or threw) to a log kept beside the world. *)
Definition logged {W A : Type} (c : M W A) : M (W * list (outcome A)) A :=
  fun wl =>
    match c (fst wl) with
    | (o, w') => (o, (w', (snd wl ++ [o])%list))
    end.

Definition besideLog {W L : Type} (f : Delay -> W -> W)
  : Delay -> W * L -> W * L :=
  fun d wl => (f d (fst wl), snd wl).

(** An attempt that did not deliver: a failure result or an exception. *)
Definition undelivered {Json} (o : outcome (SendResult Json)) : Prop :=
  match o with
  | Returned r => success r = false
  | Thrown _ => True
  end.

(** The error the wrapper has seen last, given the attempts so far. *)
Definition lastErrorOf {Json} (log : list (outcome (SendResult Json)))
  : LastError :=
  match last log with
  | Some (Returned r) => errorOf r
  | Some (Thrown e) => LastThrown e
  | None => LastUndefined
  end.

End WhatsApp.

(* ===================================================================== *)
(** * Tracking update workflow (route.ts, POST)                           *)
(* ===================================================================== *)

Module Tracking.
Import Js Courier.

Record Session : Type := { user_id : string }.

(** The JSON body [{ billId, trackingNumber, weight }]; a field is [None]
    when the body does not carry it. *)
Record Body : Type := {
  billId : option string;
  trackingNumber : option string;
  weight : option string
}.

(** [request.json()] may throw on a malformed body. *)
Record Request : Type := { json : outcome Body }.

Record WhatsappVariables : Type := {
  var1 : string; var2 : string; var3 : string; var4 : string;
  var5 : string; var6 : string; var7 : string; var8 : string
}.

Section Types.
Context {Num : Type}.

Record Customer : Type := { c_phone : option string }.
Record Product : Type := { p_name : string }.
Record Item : Type := { i_product : Product }.
Record Organisation : Type := { shopName : string }.

(** A row of [transactionRecord] with the relations the handler
    includes. *)
Record Bill : Type := {
  id : Num;
  companyBillNo : Num;
  organisationId : Num;
  billingMode : string;
  b_trackingNumber : option string;
  b_weight : option Num;
  status : string;
  customer : option Customer;
  items : list Item;
  organisation : Organisation
}.

(** The [data] of [prisma.transactionRecord.update]. *)
Record UpdateData : Type := {
  u_trackingNumber : string;
  u_weight : option Num;
  u_status : string
}.

Record StatusArgs : Type := {
  sa_phone : string;
  sa_organisationId : Num;
  sa_status : string;
  sa_whatsappVariables : WhatsappVariables
}.

(** The JSON payload of a response. *)
Inductive Payload : Type :=
| ErrorPayload (error : string)
| SuccessPayload (data : Bill)
| FailurePayload (message : string).

Record Response : Type := { r_status : Z; r_payload : Payload }.

(** Calls to the collaborators that touch the store or the provider. *)
Inductive Call : Type :=
| CallFindFirst (billNo org : Num) (found : outcome (option Bill))
| CallUpdate (rowId : Num) (data : UpdateData)
| CallNotify (args : StatusArgs).
End Types.
Arguments Bill : clear implicits.
Arguments UpdateData : clear implicits.
Arguments StatusArgs : clear implicits.
Arguments Payload : clear implicits.
Arguments Response : clear implicits.
Arguments Call : clear implicits.

(** The collaborators of the handler: the session layer, [parseInt] and
    [parseFloat], the two Prisma calls, [splitProducts] and
    [sendOrderStatusWhatsApp] of [@/lib/whatsapp]. *)
Class Env (W Num : Type) : Type := {
  getServerSession : M W (option Session);
  parseInt : string -> Num;
  parseFloat : string -> Num;
  (** [findFirst({ where: { companyBillNo, organisationId }, ... })] *)
  findFirst : Num -> Num -> M W (option (Bill Num));
  (** [update({ where: { id }, data, ... })] *)
  update : Num -> UpdateData Num -> M W (Bill Num);
  splitProducts : string -> outcome (list string);
  sendOrderStatusWhatsApp : StatusArgs Num -> M W unit
}.

Section Handler.
Context {W Num : Type} `{E : Env W Num}.

Definition respond (st : Z) (p : Payload Num) : M W (Response Num) :=
  ret {| r_status := st; r_payload := p |}.

(** [updatedBill.customer?.phone] *)
Definition phoneOf (b : Bill Num) : option string :=
  match customer b with
  | Some c => c_phone c
  | None => None
  end.

(** [updatedBill.items.map(i => i.product.name).join(', ')] *)
Definition productListOf (b : Bill Num) : string :=
  String.concat ", " (map (fun i => p_name (i_product i)) (items b)).

(** Lines 89-112: the argument of [sendOrderStatusWhatsApp], given the
    parts [splitProducts] returned (a missing part defaults to ''). *)
Definition statusArgsFor (session : Session)
    (trackingNumber : string) (weight : option string)
    (updatedBill : Bill Num) (parts : list string) : StatusArgs Num :=
  let organisationName := shopName (organisation updatedBill) in
  let productsPart1 := default "" (parts !! 0%nat) in
  let productsPart2 := default "" (parts !! 1%nat) in
  let shippingPartner := determineShippingPartner trackingNumber in
  let trackingUrl := getTrackingUrl shippingPartner trackingNumber in
  let whatsappVariables :=
    {| var1 := organisationName;
       var2 := productsPart1;
       var3 := productsPart2;
       var4 := shippingPartner;
       var5 := trackingNumber;
       var6 := if truthy weight then default "" weight ++ " Kg" else "";
       var7 := trackingUrl;
       var8 := organisationName |} in
  {| sa_phone := default "" (phoneOf updatedBill);
     sa_organisationId := parseInt (user_id session);
     sa_status := "shipped";
     sa_whatsappVariables := whatsappVariables |}.

(** Lines 88-113: the notification, attempted when the updated bill has a
    customer with a phone. *)
Definition notifyCustomer (session : Session)
    (trackingNumber : string) (weight : option string)
    (updatedBill : Bill Num) : M W unit :=
  if truthy (phoneOf updatedBill)
  then
    let* parts := lift (splitProducts (productListOf updatedBill)) in
    sendOrderStatusWhatsApp
      (statusArgsFor session trackingNumber weight updatedBill parts)
  else ret tt.

(** The [data] of the update (lines 75-79). *)
Definition trackingUpdate (trackingNumber : string) (weight : option string)
  : UpdateData Num :=
  {| u_trackingNumber := trackingNumber;
     u_weight := if truthy weight
                 then Some (parseFloat (default "" weight))
                 else None;
     u_status := "shipped" |}.

(** Lines 73-115: the update, the notification and the success
    response. *)
Definition updateAndNotify (session : Session)
    (trackingNumber : string) (weight : option string)
    (existingBill : Bill Num) : M W (Response Num) :=
  let* updatedBill :=
    update (id existingBill) (trackingUpdate trackingNumber weight) in
  let* _ := notifyCustomer session trackingNumber weight updatedBill in
  respond 200 (SuccessPayload updatedBill).

(** The response of line 70. *)
Definition offlineResponse : Response Num :=
  {| r_status := 400;
     r_payload := ErrorPayload "Tracking cannot be added to offline bills." |}.

(** The body of the [try] block. *)
Definition POST_try (request : Request) : M W (Response Num) :=
  let* session := getServerSession in
  match session with
  | None => respond 401 (ErrorPayload "Unauthorized")
  | Some session =>
      let* body := lift (json request) in
      if negb (truthy (billId body)) || negb (truthy (trackingNumber body))
      then respond 400 (ErrorPayload "Bill ID and tracking number are required")
      else
        let billId_ := default "" (billId body) in
        let trackingNumber_ := default "" (trackingNumber body) in
        let* existingBill :=
          findFirst (parseInt billId_) (parseInt (user_id session)) in
        match existingBill with
        | None => respond 404 (ErrorPayload "Bill not found")
        | Some existingBill =>
            if String.eqb (billingMode existingBill) "offline"
            then respond 400
                   (ErrorPayload "Tracking cannot be added to offline bills.")
            else updateAndNotify session trackingNumber_ (weight body)
                                 existingBill
        end
  end.

(** The [catch] block. *)
Definition POST_catch (error : thrown) : M W (Response Num) :=
  let* message := lift (messageOf error) in
  respond 500 (FailurePayload (or_else message "Internal Error")).

Definition POST (request : Request) : M W (Response Num) :=
  tryCatch (POST_try request) POST_catch.

End Handler.

(** The same collaborators, each store or provider call also noted in a
    log kept beside the world. *)
Definition noting {W L A : Type} (c : M W A) (note : outcome A -> list L)
  : M (W * list L) A :=
  fun wl =>
    match c (fst wl) with
    | (o, w') => (o, (w', (snd wl ++ note o)%list))
    end.

Definition traced {W Num : Type} (E : Env W Num)
  : Env (W * list (Call Num)) Num :=
  {| getServerSession := noting getServerSession (fun _ => []);
     parseInt := parseInt;
     parseFloat := parseFloat;
     findFirst := fun billNo org =>
       noting (findFirst billNo org)
              (fun o => [CallFindFirst billNo org o]);
     update := fun rowId data =>
       noting (update rowId data) (fun _ => [CallUpdate rowId data]);
     splitProducts := splitProducts;
     sendOrderStatusWhatsApp := fun args =>
       noting (sendOrderStatusWhatsApp args) (fun _ => [CallNotify args]) |}.

(** The calls a run of the handler can make, in order: nothing; one
    lookup; the lookup of a bill that is not offline and its update; or
    these two and the notification. *)
Inductive CallShape {Num : Type} : list (Call Num) -> Prop :=
| NoCall : CallShape []
| LookupOnly billNo org found : CallShape [CallFindFirst billNo org found]
| LookupUpdate billNo org bill data rest :
    billingMode bill <> "offline" ->
    rest = [] \/ (exists args, rest = [CallNotify args]) ->
    CallShape (CallFindFirst billNo org (Returned (Some bill))
               :: CallUpdate (id bill) data :: rest).

End Tracking.

(* ===================================================================== *)
(** * Tracking fetch (route.ts, GET)                                      *)
(* ===================================================================== *)

Module TrackingRead.
Import Js Tracking.

(** The request as far as [GET] reads it: what
    [new URL(request.url).searchParams.get('billId')] gives ([None] for
    [null]); building the URL may throw. *)
Record GetRequest : Type := { billIdParam : outcome (option string) }.

(** The JSON payload of a [GET] response; [View] is the bill with the
    customer fields and the items that the query selects. *)
Inductive GetPayload (View : Type) : Type :=
| GetError (error : string)
| GetSuccess (data : View)
| GetFailure (message : string).
Arguments GetError {View} error.
Arguments GetSuccess {View} data.
Arguments GetFailure {View} message.

Record GetResponse (View : Type) : Type := {
  g_status : Z;
  g_payload : GetPayload View
}.
Arguments g_status {View} _.
Arguments g_payload {View} _.

(** The collaborators of the file, with the second query of it:
    [findFirst({ where: { companyBillNo, organisationId },
                 include: { customer: { select: ... }, items: ... } })]. *)
Class ReadEnv (W Num View : Type) : Type := {
  handlerEnv :: Env W Num;
  findFirstForDisplay : Num -> Num -> M W (option View)
}.

Section Handler.
Context {W Num View : Type} `{R : ReadEnv W Num View}.

(** The body of the [try] block. *)
Definition GET_try (request : GetRequest) : M W (GetResponse View) :=
  let* session := getServerSession in
  match session with
  | None => ret {| g_status := 401; g_payload := GetError "Unauthorized" |}
  | Some session =>
      let* billId := lift (billIdParam request) in
      if negb (truthy billId)
      then ret {| g_status := 400;
                  g_payload := GetError "Bill ID is required" |}
      else
        let* bill :=
          findFirstForDisplay (parseInt (default "" billId))
                              (parseInt (user_id session)) in
        match bill with
        | None => ret {| g_status := 404;
                         g_payload := GetError "Bill not found" |}
        | Some bill => ret {| g_status := 200;
                              g_payload := GetSuccess bill |}
        end
  end.

(** The [catch] block. *)
Definition GET_catch (error : thrown) : M W (GetResponse View) :=
  let* message := lift (messageOf error) in
  ret {| g_status := 500;
         g_payload := GetFailure (or_else message "Failed to fetch bill") |}.

Definition GET (request : GetRequest) : M W (GetResponse View) :=
  tryCatch (GET_try request) GET_catch.

End Handler.

(** Calls to the store or the provider as [GET] could make them: the
    display query, or one of the calls of [POST]. *)
Inductive ReadCall (Num : Type) : Type :=
| DisplayLookup (billNo org : Num)
| HandlerCall (c : Call Num).
Arguments DisplayLookup {Num} billNo org.
Arguments HandlerCall {Num} c.

(** The same collaborators, each store or provider call noted in a log
    kept beside the world. *)
Definition tracedRead {W Num View : Type} (R : ReadEnv W Num View)
  : ReadEnv (W * list (ReadCall Num)) Num View :=
  {| handlerEnv :=
       {| getServerSession := noting getServerSession (fun _ => []);
          parseInt := parseInt;
          parseFloat := parseFloat;
          findFirst := fun billNo org =>
            noting (findFirst billNo org)
                   (fun o => [HandlerCall (CallFindFirst billNo org o)]);
          update := fun rowId data =>
            noting (update rowId data)
                   (fun _ => [HandlerCall (CallUpdate rowId data)]);
          splitProducts := splitProducts;
          sendOrderStatusWhatsApp := fun args =>
            noting (sendOrderStatusWhatsApp args)
                   (fun _ => [HandlerCall (CallNotify args)]) |};
     findFirstForDisplay := fun billNo org =>
       noting (findFirstForDisplay billNo org)
              (fun _ => [DisplayLookup billNo org]) |}.

End TrackingRead.

(* ===================================================================== *)
(** * Logs of provider requests and of timer waits                        *)
(* ===================================================================== *)

Module Instrumented.
Import Js WhatsApp Tracking.

(** The provider collaborators, with every request handed to [fetch] noted
    in a log kept beside the world. *)
Definition posting {W Num Json : Type} (P : Provider W Num Json)
  : Provider (W * list FetchRequest) Num Json :=
  {| getValidAccessToken := fun org =>
       noting (getValidAccessToken org) (fun _ => []);
     fetch := fun req => noting (fetch req) (fun _ => [req]);
     message_id := message_id;
     now := fun wl => now (fst wl);
     sleep := fun d wl => (sleep d (fst wl), snd wl) |}.

(** The timer, with every delay waited for noted in a log kept beside the
    world; and a computation that leaves that log alone. *)
Definition timing {W : Type} (sleep : Delay -> W -> W)
  : Delay -> W * list Delay -> W * list Delay :=
  fun d wl => (sleep d (fst wl), (snd wl ++ [d])%list).

Definition untimed {W A : Type} (c : M W A) : M (W * list Delay) A :=
  noting c (fun _ => []).

(** The delays of the attempts [1 .. n]: [2 ** attempt * 1000]
    milliseconds up to attempt 1014, [Infinity] beyond. *)
Definition backoffDelays (n : Z) : list Delay :=
  map (fun attempt =>
         if (attempt <=? 1014)%Z then Millis (2 ^ attempt * 1000)%Z
         else InfiniteDelay)
      (seqZ 1 n).

(** Every character of [s] is one of 0 .. 9. *)
Fixpoint allDigits (s : string) : bool :=
  match s with
  | EmptyString => true
  | String c rest => isDigit c && allDigits rest
  end.

(** The bill of a delivery call, as an input of [formatBillingMessage]. *)
Definition asFormatParams {Num : Type} `{T : Text Num}
    (p : BillingWhatsAppParams Num) (tag : option string)
  : FormatParams Num :=
  {| f_companyName := companyName p;
     f_billNo := numToString (billNo p);
     f_products := products p;
     f_amount := amount p;
     f_address := address p;
     f_shippingMethod := shippingMethod p;
     f_template := tag |}.

(** [msg] contains [part]. *)
Definition contains (msg part : string) : Prop :=
  exists before after, msg = before ++ part ++ after.

End Instrumented.

(* ===================================================================== *)
(** * Test doubles for the collaborators                                  *)
(* ===================================================================== *)

Module Doubles.
Import Js WhatsApp.

Definition upperChar (c : ascii) : ascii :=
  let n := nat_of_ascii c in
  if (97 <=? n)%nat && (n <=? 122)%nat then ascii_of_nat (n - 32) else c.

(** Upper-casing of ASCII letters, which is what [toUpperCase] does on ASCII
    text. *)
Fixpoint upperAscii (s : string) : string :=
  match s with
  | EmptyString => EmptyString
  | String c rest => String (upperChar c) (upperAscii rest)
  end.

(** Integer amounts, printed in decimal; a splitter that puts the whole
    address on the first line. *)
Definition zText : Text Z :=
  {| numToString := pretty;
     toUpperCase := upperAscii;
     splitAddressIntoThreeParts := fun a => Returned (a, "", "") |}.

(** A provider world: the clock, the token on file, the replies the
    provider will give (in order), and what has been posted and slept. *)
Record ProviderWorld : Type := {
  pw_clock : Clock;
  pw_token : option string;
  pw_replies : list (outcome (FetchResponse string));
  pw_posted : list FetchRequest;
  pw_slept : list Delay
}.

(** The provider's JSON answer, reduced to its [message_id] field. *)
Definition scriptedProvider : Provider ProviderWorld Z string :=
  {| getValidAccessToken := fun _ => gets pw_token;
     fetch := fun req w =>
       let w' := {| pw_clock := pw_clock w;
                    pw_token := pw_token w;
                    pw_replies := tail (pw_replies w);
                    pw_posted := (pw_posted w ++ [req])%list;
                    pw_slept := pw_slept w |} in
       match pw_replies w with
       | reply :: _ => (reply, w')
       | [] => (Thrown (ErrorObj "TypeError" "fetch failed"), w')
       end;
     message_id := fun j =>
       Returned (if String.eqb j "" then None else Some j);
     now := pw_clock;
     sleep := fun d w =>
       {| pw_clock := pw_clock w;
          pw_token := pw_token w;
          pw_replies := pw_replies w;
          pw_posted := pw_posted w;
          pw_slept := (pw_slept w ++ [d])%list |} |}.

Definition noon : Clock :=
  {| toISOString := "2024-05-01T12:00:00.000Z";
     toLocaleDateString := "5/1/2024" |}.

Definition nextDay : Clock :=
  {| toISOString := "2024-05-02T12:00:00.000Z";
     toLocaleDateString := "5/2/2024" |}.

Definition okReply (mid : string) : outcome (FetchResponse string) :=
  Returned {| res_ok := true; res_status := 200%Z;
              res_text := Returned "";
              res_json := Returned mid |}.

Definition errorReply (st : Z) (text : string)
  : outcome (FetchResponse string) :=
  Returned {| res_ok := false; res_status := st;
              res_text := Returned text;
              res_json := Thrown (ErrorObj "SyntaxError" "Unexpected token") |}.

Definition providerWith (token : option string)
    (replies : list (outcome (FetchResponse string)))
  : ProviderWorld :=
  {| pw_clock := noon; pw_token := token; pw_replies := replies;
     pw_posted := []; pw_slept := [] |}.

Definition billFor (phoneNumber : string) : BillingWhatsAppParams Z :=
  {| phone := phoneNumber;
     companyName := "Veda";
     products := "Soap x2";
     amount := 450%Z;
     address := "12 Main Road, Trichy";
     organisationId := 7%Z;
     billNo := 31%Z;
     shippingMethod := None |}.

Definition invoice (template : option string) : FormatParams Z :=
  {| f_companyName := "Veda";
     f_billNo := "31";
     f_products := "Soap x2";
     f_amount := 450%Z;
     f_address := "12 Main Road, Trichy";
     f_shippingMethod :=
       Some {| sm_name := "Speed"; sm_type := "air"; sm_cost := 40%Z |};
     f_template := template |}.

(** A delivery stub that plays back a script of outcomes, one per call
    (and throws once the script is used up). *)
Definition playback {R : Type} : M (list (outcome R)) R :=
  fun script =>
    match script with
    | o :: rest => (o, rest)
    | [] => (Thrown (mkError "script exhausted"), [])
    end.

Definition noSleep {W : Type} : Delay -> W -> W := fun _ w => w.

Definition delivered : SendResult string :=
  SendOk "wamid.1" (Some "wamid.1").

Definition failedOnce (why : string) : SendResult string :=
  SendFailed why "2024-05-01T12:00:00.000Z".

(** An in-memory store behind the handler: the rows of
    [transactionRecord] and what was handed to the notifier. *)
Record StoreWorld : Type := {
  sw_rows : list (Tracking.Bill Z);
  sw_notified : list (Tracking.StatusArgs Z)
}.

Definition digitValue (c : ascii) : Z := Z.of_nat (nat_of_ascii c - 48).

Fixpoint leadingDigits (acc : Z) (s : string) : Z :=
  match s with
  | String c rest =>
      if isDigit c then leadingDigits (10 * acc + digitValue c) rest else acc
  | EmptyString => acc
  end.

(** On a text that starts with a decimal digit this is [parseInt] (and
    [parseFloat], on whole numbers); the examples use no other. *)
Definition parseDecimal (s : string) : Z := leadingDigits 0 s.

Definition rowMatches (billNo org : Z) (b : Tracking.Bill Z) : bool :=
  (Tracking.companyBillNo b =? billNo)%Z && (Tracking.organisationId b =? org)%Z.

Definition applyUpdate (data : Tracking.UpdateData Z) (b : Tracking.Bill Z)
  : Tracking.Bill Z :=
  {| Tracking.id := Tracking.id b;
     Tracking.companyBillNo := Tracking.companyBillNo b;
     Tracking.organisationId := Tracking.organisationId b;
     Tracking.billingMode := Tracking.billingMode b;
     Tracking.b_trackingNumber := Some (Tracking.u_trackingNumber data);
     Tracking.b_weight := Tracking.u_weight data;
     Tracking.status := Tracking.u_status data;
     Tracking.customer := Tracking.customer b;
     Tracking.items := Tracking.items b;
     Tracking.organisation := Tracking.organisation b |}.

Definition storeUpdate (rowId : Z) (data : Tracking.UpdateData Z)
  : M StoreWorld (Tracking.Bill Z) :=
  fun w =>
    match List.find (fun b => (Tracking.id b =? rowId)%Z) (sw_rows w) with
    | Some b =>
        (Returned (applyUpdate data b),
         {| sw_rows :=
              map (fun r => if (Tracking.id r =? rowId)%Z
                            then applyUpdate data r else r) (sw_rows w);
            sw_notified := sw_notified w |})
    | None =>
        (Thrown (ErrorObj "PrismaClientKnownRequestError"
                          "Record to update not found."), w)
    end.

(** A notifier that hands the message over. *)
Definition recordingNotifier (args : Tracking.StatusArgs Z)
  : M StoreWorld unit :=
  fun w => (Returned tt,
            {| sw_rows := sw_rows w;
               sw_notified := (sw_notified w ++ [args])%list |}).


(** A notifier whose promise rejects with [null]. *)
Definition rejectingNotifier (args : Tracking.StatusArgs Z)
  : M StoreWorld unit :=
  throw (Nullish false).

(** The handler's collaborators over the in-memory store, for a session of
    organisation 7. *)
Definition storeEnv (notifier : Tracking.StatusArgs Z -> M StoreWorld unit)
  : Tracking.Env StoreWorld Z :=
  {| Tracking.getServerSession := ret (Some {| Tracking.user_id := "7" |});
     Tracking.parseInt := parseDecimal;
     Tracking.parseFloat := parseDecimal;
     Tracking.findFirst := fun billNo org =>
       gets (fun w => List.find (rowMatches billNo org) (sw_rows w));
     Tracking.update := storeUpdate;
     Tracking.splitProducts := fun s => Returned [s];
     Tracking.sendOrderStatusWhatsApp := notifier |}.

Definition billOf (mode : string) : Tracking.Bill Z :=
  {| Tracking.id := 501%Z;
     Tracking.companyBillNo := 31%Z;
     Tracking.organisationId := 7%Z;
     Tracking.billingMode := mode;
     Tracking.b_trackingNumber := None;
     Tracking.b_weight := None;
     Tracking.status := "processing";
     Tracking.customer := Some {| Tracking.c_phone := Some "9876543210" |};
     Tracking.items :=
       [ {| Tracking.i_product := {| Tracking.p_name := "Soap" |} |};
         {| Tracking.i_product := {| Tracking.p_name := "Oil" |} |} ];
     Tracking.organisation := {| Tracking.shopName := "Veda" |} |}.

Definition storeOf (mode : string) : StoreWorld :=
  {| sw_rows := [billOf mode]; sw_notified := [] |}.

Definition shipRequest : Tracking.Request :=
  {| Tracking.json :=
       Returned {| Tracking.billId := Some "31";
                   Tracking.trackingNumber := Some "CT123456789IN";
                   Tracking.weight := Some "2" |} |}.

End Doubles.

(* ===================================================================== *)
(** * Test doubles for the fetch handler                                  *)
(* ===================================================================== *)

Module ReadDoubles.
Import Js Tracking TrackingRead Doubles.

(** The in-memory store with the display query answered from the same
    rows (the whole row stands for the selected view). *)
Definition storeReadEnv : ReadEnv StoreWorld Z (Bill Z) :=
  {| handlerEnv := storeEnv recordingNotifier;
     findFirstForDisplay := fun billNo org =>
       gets (fun w => List.find (rowMatches billNo org) (sw_rows w)) |}.

Definition fetchBill (billId : option string) : GetRequest :=
  {| billIdParam := Returned billId |}.

(** A store whose queries fail. *)
Definition brokenReadEnv : ReadEnv StoreWorld Z (Bill Z) :=
  {| handlerEnv := storeEnv recordingNotifier;
     findFirstForDisplay := fun _ _ =>
       throw (ErrorObj "PrismaClientInitializationError" "") |}.

(** The in-memory store, with a connection that is lost when the update
    is issued. *)
Definition lostConnectionEnv : Env StoreWorld Z :=
  {| getServerSession := ret (Some {| user_id := "7" |});
     parseInt := parseDecimal;
     parseFloat := parseDecimal;
     findFirst := fun billNo org =>
       gets (fun w => List.find (rowMatches billNo org) (sw_rows w));
     update := fun _ _ => throw (mkError "Connection lost");
     splitProducts := fun s => Returned [s];
     sendOrderStatusWhatsApp := recordingNotifier |}.

Definition shipBody : Body :=
  {| billId := Some "31";
     trackingNumber := Some "CT123456789IN";
     weight := Some "2" |}.

End ReadDoubles.

(* ===================================================================== *)
(** * Running computations step by step                                   *)
(* ===================================================================== *)

Module JsFacts.
Import Js.

(** In a [catch] block that reads [error.message]: split on what the
    read gives. *)
Ltac caught :=
  cbv beta iota;
  try (match goal with
       | |- context [messageOf ?x] => destruct (messageOf x)
       end; cbv beta iota).


Lemma bind_thrown {W A B} (c : M W A) (k : A -> M W B) w e w' :
  c w = (Thrown e, w') -> bind c k w = (Thrown e, w').
Proof. intros H. unfold bind. rewrite H. reflexivity. Qed.

Lemma tryCatch_returned {W A} (c : M W A) h w a w' :
  c w = (Returned a, w') -> tryCatch c h w = (Returned a, w').
Proof. intros H. unfold tryCatch. rewrite H. reflexivity. Qed.


End JsFacts.

(* ===================================================================== *)
(** * Properties of the courier classification                            *)
(* ===================================================================== *)

Module CourierFacts.
Import Js Courier.

(** Split on every test of an if-chain. *)
Ltac split_ifs :=
  repeat match goal with
         | |- context [if ?c then _ else _] => destruct c
         end.

(** Go through the members of a literal list [H : In x [a; b; ...]],
    closing each case with [tac]. *)
Ltac each_member H tac :=
  simpl in H; repeat (destruct H as [<- | H]; [tac|]); destruct H.

Lemma startsWith_split (s p : string) :
  startsWith s p = true -> exists rest, s = p ++ rest.
Proof.
  revert s. induction p as [|a p IH]; intros s H.
  - exists s. reflexivity.
  - destruct s as [|b s]; simpl in H; [discriminate|].
    apply andb_prop in H as [Hab Hp].
    apply Ascii.eqb_eq in Hab as ->.
    destruct (IH s Hp) as [rest ->]. exists rest. reflexivity.
Qed.

Lemma startsWith_app (p rest : string) : startsWith (p ++ rest) p = true.
Proof.
  induction p as [|a p IH]; simpl; [reflexivity|].
  rewrite Ascii.eqb_refl. exact IH.
Qed.

Lemma regex_needs_10 (s : string) :
  test_10_not_000 s = true -> startsWith s "10" = true.
Proof.
  unfold test_10_not_000.
  destruct s as [|a [|b s]]; try discriminate.
  intros H. apply andb_prop in H as [H _]. apply andb_prop in H as [Ha Hb].
  apply Ascii.eqb_eq in Ha as ->. apply Ascii.eqb_eq in Hb as ->.
  reflexivity.
Qed.

Lemma regex_fails_iff_10000 (s : string) :
  startsWith s "10" = true ->
  test_10_not_000 s = negb (startsWith s "10000").
Proof.
  intros H. destruct (startsWith_split _ _ H) as [rest ->].
  reflexivity.
Qed.

Lemma starts_10_trackon (s : string) :
  startsWith s "10" = true -> determineShippingPartner s = "TRACKON".
Proof.
  intros H. pose proof (regex_fails_iff_10000 s H) as R.
  destruct (startsWith_split _ _ H) as [rest ->].
  unfold determineShippingPartner. rewrite R.
  change (startsWith ("10" ++ rest) "CT") with false.
  change (startsWith ("10" ++ rest) "C1") with false.
  change (startsWith ("10" ++ rest) "58") with false.
  change (startsWith ("10" ++ rest) "500") with false.
  cbv iota. rewrite orb_false_l, orb_negb_r. reflexivity.
Qed.

Lemma classifier_is_firstMatch (s : string) :
  determineShippingPartner s = firstMatch s.
Proof.
  unfold determineShippingPartner, firstMatch, rules, List.find, fst, snd.
  split_ifs; reflexivity.
Qed.

Lemma classifier_range (s : string) :
  In (determineShippingPartner s) (mappedCouriers ++ unmappedLabels)%list.
Proof.
  unfold determineShippingPartner.
  split_ifs; simpl; tauto.
Qed.

Lemma url_lookup_cases (p : string) :
  In p mappedCouriers ->
  exists u, urls !! p = Some u /\ u <> "" /\ u <> genericTrackingUrl.
Proof.
  unfold mappedCouriers. intros H.
  each_member H
    ltac:(eexists; split; [vm_compute; reflexivity | split; discriminate]).
Qed.

Lemma or_else_some (u d : string) : u <> "" -> or_else (Some u) d = u.
Proof.
  intros H. unfold or_else.
  destruct (String.eqb_spec u ""); [contradiction | reflexivity].
Qed.

(** C3 (as stated, refuted): the text "10000" fails the regular expression
    but is classified TRACKON all the same, by the [startsWith("10000")]
    test of the same rule. *)
Lemma C3_counterexample :
  test_10_not_000 "10000" = false /\
  determineShippingPartner "10000" = "TRACKON".
Proof. split; reflexivity. Qed.

(** C3 (amended): "10001", and every tracking number that matches "10" not
    followed by "000", is classified TRACKON; "10000" is not matched by
    that regular expression, yet every tracking number starting with
    "10000" is classified TRACKON by the explicit "10000" prefix test of
    the same rule, so that every tracking number starting with "10" is
    TRACKON. *)
Theorem C3_trackon_boundary :
  determineShippingPartner "10001" = "TRACKON" /\
  (forall s, test_10_not_000 s = true ->
             determineShippingPartner s = "TRACKON") /\
  test_10_not_000 "10000" = false /\
  (forall s, startsWith s "10000" = true ->
             test_10_not_000 s = false /\
             determineShippingPartner s = "TRACKON") /\
  (forall s, startsWith s "10" = true ->
             determineShippingPartner s = "TRACKON").
Proof.
  split; [reflexivity|].
  split; [intros s H; apply starts_10_trackon, regex_needs_10, H|].
  split; [reflexivity|].
  split; [|exact starts_10_trackon].
  intros s H.
  assert (H10 : startsWith s "10" = true).
  { destruct (startsWith_split _ _ H) as [rest ->]. reflexivity. }
  split; [|apply starts_10_trackon, H10].
  rewrite (regex_fails_iff_10000 s H10), H. reflexivity.
Qed.

Lemma C3_trackon_boundary_witness :
  determineShippingPartner "1000" = "TRACKON" /\
  (test_10_not_000 "100001" = false /\
   determineShippingPartner "100001" = "TRACKON") /\
  determineShippingPartner "10" = "TRACKON".
Proof.
  destruct C3_trackon_boundary as (_ & Hre & _ & H10000 & H10).
  split; [apply (Hre "1000"); reflexivity|].
  split; [apply (H10000 "100001"); reflexivity|].
  apply (H10 "10"); reflexivity.
Defined.

(** C6: the classifier is its rule table read top to bottom, first match
    winning; tracking numbers starting with "CT", "C1", "JT" and "TRZ" get
    "INDIA POST", "DTDC", "J&T" and "PROFESSIONAL COURIER"; a tracking
    number with none of the listed prefixes (such as "ZZ123") gets
    "Unknown", and the tracking URL of "Unknown" is the generic one. *)
Theorem C6_ordered_prefix_rules :
  (forall s, determineShippingPartner s = firstMatch s) /\
  (forall s, startsWith s "CT" = true ->
             determineShippingPartner s = "INDIA POST") /\
  (forall s, startsWith s "C1" = true ->
             determineShippingPartner s = "DTDC") /\
  (forall s, startsWith s "JT" = true ->
             determineShippingPartner s = "J&T") /\
  (forall s, startsWith s "TRZ" = true ->
             determineShippingPartner s = "PROFESSIONAL COURIER") /\
  (forall s, (forall p, In p listedPrefixes -> startsWith s p = false) ->
             determineShippingPartner s = "Unknown") /\
  determineShippingPartner "ZZ123" = "Unknown" /\
  (forall n, getTrackingUrl "Unknown" n = genericTrackingUrl).
Proof.
  split; [exact classifier_is_firstMatch|].
  split.
  { intros s H. unfold determineShippingPartner. rewrite H. reflexivity. }
  split.
  { intros s H. destruct (startsWith_split _ _ H) as [rest ->]. reflexivity. }
  split.
  { intros s H. destruct (startsWith_split _ _ H) as [rest ->]. reflexivity. }
  split.
  { intros s H. destruct (startsWith_split _ _ H) as [rest ->]. reflexivity. }
  split.
  { intros s H.
    assert (R : test_10_not_000 s = false).
    { destruct (test_10_not_000 s) eqn:T; [|reflexivity].
      apply regex_needs_10 in T. rewrite H in T; [discriminate|].
      unfold listedPrefixes. simpl. tauto. }
    unfold determineShippingPartner. rewrite R.
    rewrite !H by (unfold listedPrefixes; simpl; tauto).
    reflexivity. }
  split; [reflexivity|].
  intros n. vm_compute. reflexivity.
Qed.

Lemma C6_ordered_prefix_rules_witness :
  determineShippingPartner "CT123456789IN" = "INDIA POST" /\
  determineShippingPartner "C1234567" = "DTDC" /\
  determineShippingPartner "JT0001" = "J&T" /\
  determineShippingPartner "TRZ778" = "PROFESSIONAL COURIER" /\
  determineShippingPartner "ZZ123" = "Unknown".
Proof.
  destruct C6_ordered_prefix_rules
    as (_ & HCT & HC1 & HJT & HTRZ & HU & _ & _).
  split; [apply HCT; reflexivity|].
  split; [apply HC1; reflexivity|].
  split; [apply HJT; reflexivity|].
  split; [apply HTRZ; reflexivity|].
  apply HU. intros p Hp. unfold listedPrefixes in Hp.
  each_member Hp ltac:(reflexivity).
Defined.

(** C8 (as stated, refuted): "SINGPOST" and "J&T" are couriers the
    classifier returns, other than "Unknown", and they have no tracking
    page of their own. *)
Lemma C8_counterexample :
  determineShippingPartner "SM123" = "SINGPOST" /\
  "SINGPOST" <> "Unknown" /\
  urls !! "SINGPOST" = None /\
  getTrackingUrl "SINGPOST" "SM123" = genericTrackingUrl /\
  getTrackingUrl (determineShippingPartner "JT0001") "JT0001"
  = genericTrackingUrl.
Proof.
  split; [reflexivity|]. split; [discriminate|].
  split; [vm_compute; reflexivity|].
  split; vm_compute; reflexivity.
Qed.

(** C8 (amended): a label the classifier returns is either one of the ten
    couriers of the URL table, and then [getTrackingUrl] gives that
    courier's own entry, which is not the generic URL, or it is "SINGPOST",
    "J&T" or "Unknown", which have no entry and get the generic URL; the
    ten entries are pairwise different. *)
Theorem C8_tracking_urls :
  (forall s n,
     let p := determineShippingPartner s in
     (In p mappedCouriers /\
      urls !! p = Some (getTrackingUrl p n) /\
      getTrackingUrl p n <> genericTrackingUrl)
     \/
     (In p unmappedLabels /\
      urls !! p = None /\
      getTrackingUrl p n = genericTrackingUrl)) /\
  (forall p q n m,
     In p mappedCouriers -> In q mappedCouriers ->
     getTrackingUrl p n = getTrackingUrl q m -> p = q).
Proof.
  split.
  - intros s n p. subst p.
    destruct (in_app_or _ _ _ (classifier_range s)) as [H | H].
    + left. split; [exact H|].
      destruct (url_lookup_cases _ H) as (u & Hu & Hne & Hgen).
      unfold getTrackingUrl. rewrite Hu, (or_else_some _ _ Hne).
      split; [reflexivity | exact Hgen].
    + right. split; [exact H|].
      unfold unmappedLabels in H.
      each_member H ltac:(split; vm_compute; reflexivity).
  - intros p q n m Hp Hq.
    unfold mappedCouriers in Hp, Hq. simpl in Hp, Hq.
    repeat (destruct Hp as [<- | Hp]);
      try (destruct Hp);
      repeat (destruct Hq as [<- | Hq]);
      try (destruct Hq);
      vm_compute; intros E; first [reflexivity | discriminate E].
Qed.

Lemma C8_tracking_urls_witness :
  In "DTDC" mappedCouriers /\ In "ECOM" mappedCouriers /\
  getTrackingUrl "DTDC" "C1234" <> getTrackingUrl "ECOM" "3301".
Proof.
  destruct C8_tracking_urls as [_ Hinj].
  assert (Hd : In "DTDC" mappedCouriers) by (unfold mappedCouriers; simpl; tauto).
  assert (He : In "ECOM" mappedCouriers) by (unfold mappedCouriers; simpl; tauto).
  split; [exact Hd|]. split; [exact He|].
  intros E. apply (Hinj "DTDC" "ECOM" "C1234" "3301" Hd He) in E.
  discriminate E.
Defined.

(** C10: the URL [getTrackingUrl] returns depends on the courier label
    only; the tracking number plays no part in it. *)
Theorem C10_url_ignores_tracking_number :
  forall partner n1 n2 : string,
    getTrackingUrl partner n1 = getTrackingUrl partner n2.
Proof. intros partner n1 n2. unfold getTrackingUrl. reflexivity. Qed.

End CourierFacts.

(* ===================================================================== *)
(** * Properties of the delivery client                                   *)
(* ===================================================================== *)

Module DeliveryFacts.
Import Js JsFacts WhatsApp Doubles.

Section Generic.
Context {W Num Json : Type} {T : Text Num} {P : Provider W Num Json}.








End Generic.


Example accepted_phone_is_posted_normalized :
  map (fun r => mb_phone (fr_body r))
      (pw_posted
         (snd (sendBillingWhatsApp (T := zText) (P := scriptedProvider)
                 (billFor "+91 98765-43210")
                 (providerWith (Some "token-1") [okReply "wamid.1"]))))
  = ["919876543210"].
Proof. vm_compute. reflexivity. Qed.

Example provider_error_is_reported :
  fst (sendBillingWhatsApp (T := zText) (P := scriptedProvider)
         (billFor "9876543210")
         (providerWith (Some "token-1") [errorReply 401 "bad token"]))
  = Returned (SendFailed "WhatsApp API error: 401 - bad token"
                         "2024-05-01T12:00:00.000Z").
Proof. vm_compute. reflexivity. Qed.

Example network_error_is_reported :
  fst (sendBillingWhatsApp (T := zText) (P := scriptedProvider)
         (billFor "9876543210") (providerWith (Some "token-1") []))
  = Returned (SendFailed "fetch failed" "2024-05-01T12:00:00.000Z").
Proof. vm_compute. reflexivity. Qed.

End DeliveryFacts.

(* ===================================================================== *)
(** * Properties of the message composer                                  *)
(* ===================================================================== *)

Module ComposerFacts.
Import Js WhatsApp Doubles.

Section Generic.
Context {Num : Type} {T : Text Num}.

Lemma format_returns_or_rethrows (clock : Clock) (p : FormatParams Num) :
  (forall lines,
     splitAddressIntoThreeParts (f_address p) = Returned lines ->
     exists s, formatBillingMessage clock p = Returned s) /\
  (forall e,
     splitAddressIntoThreeParts (f_address p) = Thrown e ->
     formatBillingMessage clock p = Thrown e).
Proof.
  unfold formatBillingMessage. split.
  - intros [[l1 l2] l3] ->. eexists. reflexivity.
  - intros e ->. reflexivity.
Qed.

Lemma tag_not (tag : option string) (name : string) :
  tag <> Some name -> String.eqb (default "default" tag) name = true ->
  tag = None /\ name = "default".
Proof.
  intros Hne Heq. apply String.eqb_eq in Heq.
  destruct tag as [t|]; simpl in Heq.
  - subst t. contradiction.
  - split; [reflexivity | symmetry; exact Heq].
Qed.

Lemma format_default_branch (clock : Clock) (p : FormatParams Num) :
  f_template p <> Some "compact" ->
  f_template p <> Some "detailed" ->
  formatBillingMessage clock p
  = match splitAddressIntoThreeParts (f_address p) with
    | Returned (line1, line2, line3) =>
        Returned (defaultMessage (f_companyName p) (f_billNo p)
                    (f_products p) (numToString (f_amount p))
                    (shippingLineOf (f_shippingMethod p))
                    line1 line2 line3)
    | Thrown e => Thrown e
    end.
Proof.
  intros Hc Hd. unfold formatBillingMessage.
  destruct (splitAddressIntoThreeParts (f_address p)) as [[[l1 l2] l3] | e];
    [|reflexivity].
  destruct (String.eqb (default "default" (f_template p)) "compact") eqn:Ec.
  { destruct (tag_not _ _ Hc Ec) as [_ Habs]. discriminate Habs. }
  destruct (String.eqb (default "default" (f_template p)) "detailed") eqn:Ed.
  { destruct (tag_not _ _ Hd Ed) as [_ Habs]. discriminate Habs. }
  reflexivity.
Qed.

(** C9: with a template tag other than 'compact' and 'detailed' (an
    unrecognized value, or none at all) [formatBillingMessage] gives
    exactly the message of the default variant, and raises nothing of its
    own. *)
Theorem C9_other_tags_use_default (clock : Clock) (p : FormatParams Num) :
  f_template p <> Some "compact" ->
  f_template p <> Some "detailed" ->
  formatBillingMessage clock p
  = formatBillingMessage clock (withTemplate p (Some "default")) /\
  formatBillingMessage clock p
  = match splitAddressIntoThreeParts (f_address p) with
    | Returned (line1, line2, line3) =>
        Returned (defaultMessage (f_companyName p) (f_billNo p)
                    (f_products p) (numToString (f_amount p))
                    (shippingLineOf (f_shippingMethod p))
                    line1 line2 line3)
    | Thrown e => Thrown e
    end /\
  (forall lines,
     splitAddressIntoThreeParts (f_address p) = Returned lines ->
     exists s, formatBillingMessage clock p = Returned s).
Proof.
  intros Hc Hd. split; [|split].
  - rewrite (format_default_branch clock p Hc Hd).
    rewrite (format_default_branch clock (withTemplate p (Some "default")));
      [reflexivity | discriminate | discriminate].
  - apply format_default_branch; assumption.
  - apply format_returns_or_rethrows.
Qed.

(** C7 (amended): [formatBillingMessage] computes its result from its
    input and, for the 'detailed' variant only, from the current date:
    two evaluations on the same input agree whenever the variant is not
    'detailed', and for every variant whenever the date reads the same.
    It has no failure of its own: it returns a string when the address
    splitter returns, and throws only what the splitter throws. *)
Theorem C7_same_input_same_message (clock1 clock2 : Clock)
        (p : FormatParams Num) :
  (f_template p <> Some "detailed" ->
   formatBillingMessage clock1 p = formatBillingMessage clock2 p) /\
  (toLocaleDateString clock1 = toLocaleDateString clock2 ->
   formatBillingMessage clock1 p = formatBillingMessage clock2 p) /\
  (forall lines,
     splitAddressIntoThreeParts (f_address p) = Returned lines ->
     exists s, formatBillingMessage clock1 p = Returned s) /\
  (forall e,
     splitAddressIntoThreeParts (f_address p) = Thrown e ->
     formatBillingMessage clock1 p = Thrown e).
Proof.
  split; [|split; [|apply format_returns_or_rethrows]].
  - intros Hd. unfold formatBillingMessage.
    destruct (splitAddressIntoThreeParts (f_address p))
      as [[[l1 l2] l3] | e]; [|reflexivity].
    destruct (String.eqb (default "default" (f_template p)) "compact");
      [reflexivity|].
    destruct (String.eqb (default "default" (f_template p)) "detailed")
             eqn:Ed; [|reflexivity].
    destruct (tag_not _ _ Hd Ed) as [_ Habs]. discriminate Habs.
  - intros Hdate. unfold formatBillingMessage. rewrite Hdate. reflexivity.
Qed.

End Generic.

(** C7 (as stated, refuted): the 'detailed' message of one and the same
    input differs between two evaluations made on different days. *)
Lemma C7_counterexample :
  formatBillingMessage (T := zText) noon (invoice (Some "detailed"))
  <> formatBillingMessage (T := zText) nextDay (invoice (Some "detailed")).
Proof. vm_compute. intros H. discriminate H. Qed.

Lemma C7_same_input_same_message_witness :
  formatBillingMessage (T := zText) noon (invoice (Some "compact"))
  = formatBillingMessage (T := zText) nextDay (invoice (Some "compact")) /\
  exists s,
    formatBillingMessage (T := zText) noon (invoice (Some "detailed"))
    = Returned s.
Proof.
  pose proof (C7_same_input_same_message (T := zText) noon nextDay
                (invoice (Some "compact"))) as (H1 & _).
  pose proof (C7_same_input_same_message (T := zText) noon noon
                (invoice (Some "detailed"))) as (_ & _ & H3 & _).
  split.
  - apply H1. discriminate.
  - apply (H3 ("12 Main Road, Trichy", "", "")). reflexivity.
Defined.

Lemma C9_other_tags_use_default_witness :
  formatBillingMessage (T := zText) noon (invoice (Some "fancy"))
  = formatBillingMessage (T := zText) noon (invoice (Some "default")) /\
  formatBillingMessage (T := zText) noon (invoice None)
  = formatBillingMessage (T := zText) noon (invoice (Some "default")).
Proof.
  split.
  - apply (C9_other_tags_use_default (T := zText) noon
             (invoice (Some "fancy"))); discriminate.
  - apply (C9_other_tags_use_default (T := zText) noon (invoice None));
      discriminate.
Defined.

Example detailed_invoice :
  formatBillingMessage (T := zText) noon (invoice (Some "detailed"))
  = Returned
      ("🧾 *INVOICE FROM VEDA*" ++ nl ++ nl
       ++ "📋 *Bill Number:* 31" ++ nl
       ++ "📅 *Date:* 5/1/2024" ++ nl ++ nl
       ++ "🛒 *ITEMS PURCHASED:*" ++ nl ++ "Soap x2" ++ nl ++ nl
       ++ "💰 *TOTAL AMOUNT:* ₹450" ++ nl
       ++ "🚚 Shipping: Speed (air) - ₹40" ++ nl ++ nl
       ++ "🏠 *DELIVERY ADDRESS:*" ++ nl
       ++ "12 Main Road, Trichy" ++ nl ++ nl ++ nl ++ nl
       ++ "✅ *Order Status:* Confirmed" ++ nl
       ++ "🙏 Thank you for choosing Veda!").
Proof. vm_compute. reflexivity. Qed.

End ComposerFacts.

(* ===================================================================== *)
(** * Properties of the retry wrapper                                     *)
(* ===================================================================== *)

Module RetryFacts.
Import Js WhatsApp Doubles.
Local Open Scope list_scope.

Section Generic.
Context {W Json : Type}.
Variable sleep : Delay -> W -> W.
Variable send : M W (SendResult Json).
Variable maxRetries : Z.

Let Log : Type := list (outcome (SendResult Json)).

(** The attempt numbers the loop goes through are those with
    [1 <= attempt <= maxRetries], in increasing order. *)
Lemma attempt_numbers (attempt : Z) :
  In attempt (seqZ 1 maxRetries) <-> (1 <= attempt <= maxRetries)%Z.
Proof.
  rewrite <- list_elem_of_In, elem_of_seqZ. lia.
Qed.

Lemma lastErrorOf_snoc (log : Log) (o : outcome (SendResult Json)) :
  lastErrorOf (log ++ [o])
  = match o with
    | Returned r => errorOf r
    | Thrown e => LastThrown e
    end.
Proof. unfold lastErrorOf. rewrite last_snoc. reflexivity. Qed.

(** One pass of the instrumented loop body, by what the delivery call
    does. *)
Lemma attempt_logged (attempt : Z) (w : W) (log : Log) :
  match send w with
  | (Returned r, w') =>
      if success r
      then attemptOnce (besideLog sleep) (logged send) maxRetries attempt
                       (w, log)
           = (Returned (inl r), (w', log ++ [Returned r]))
      else exists w'',
          attemptOnce (besideLog sleep) (logged send) maxRetries attempt
                      (w, log)
          = (Returned (inr (errorOf r)), (w'', log ++ [Returned r]))
  | (Thrown e, w') =>
      attemptOnce (besideLog sleep) (logged send) maxRetries attempt
                  (w, log)
      = (Returned (inr (LastThrown e)), (w', log ++ [Thrown e]))
  end.
Proof.
  unfold attemptOnce, tryCatch, bind, logged, besideLog, ret. simpl.
  destruct (send w) as [[r | e] w']; [|reflexivity].
  destruct (success r); [reflexivity|].
  destruct (attempt <? maxRetries)%Z; eexists; reflexivity.
Qed.

Lemma retryLoop_cons {V} (sl : Delay -> V -> V) (sd : M V (SendResult Json))
      (attempt : Z) (rest : list Z) (le : LastError) (v : V) :
  retryLoop sl sd maxRetries (attempt :: rest) le v
  = match attemptOnce sl sd maxRetries attempt v with
    | (Returned (inl result), v') => (Returned result, v')
    | (Returned (inr lastError'), v') =>
        retryLoop sl sd maxRetries rest lastError' v'
    | (Thrown e, v') => (Thrown e, v')
    end.
Proof.
  cbn [retryLoop]. unfold bind.
  destruct (attemptOnce sl sd maxRetries attempt v) as [[[r | le'] | e] v'];
    reflexivity.
Qed.

(** The loop, from any point: it adds at most one log entry per attempt
    still to come; it either returns the first delivered result, which is
    then the last entry, or runs all attempts and throws the terminal
    error built from the last entry. *)
Lemma retryLoop_logged (attempts : list Z) :
  forall (w : W) (log : Log),
    exists (res : outcome (SendResult Json)) (w' : W) (new : Log),
      retryLoop (besideLog sleep) (logged send) maxRetries
                attempts (lastErrorOf log) (w, log)
      = (res, (w', log ++ new)) /\
      (length new <= length attempts)%nat /\
      ((exists r fails,
           res = Returned r /\ success r = true /\
           new = fails ++ [Returned r] /\ Forall undelivered fails)
       \/
       (res = Thrown (terminalError maxRetries (lastErrorOf (log ++ new)))
        /\ length new = length attempts /\ Forall undelivered new)).
Proof.
  induction attempts as [|attempt rest IH]; intros w log.
  - exists (Thrown (terminalError maxRetries (lastErrorOf log))), w, [].
    rewrite app_nil_r.
    split; [reflexivity|]. split; [simpl; lia|].
    right. split; [reflexivity|]. split; [reflexivity | constructor].
  - pose proof (attempt_logged attempt w log) as Hstep.
    rewrite retryLoop_cons.
    destruct (send w) as [[r | e] w1].
    + destruct (success r) eqn:Hs.
      * rewrite Hstep. exists (Returned r), w1, [Returned r].
        split; [reflexivity|]. split; [simpl; lia|].
        left. exists r, []. repeat split; [exact Hs | constructor].
      * destruct Hstep as [w2 Hstep]. rewrite Hstep.
        rewrite <- (lastErrorOf_snoc log (Returned r)).
        destruct (IH w2 (log ++ [Returned r]))
          as (res & w' & new & Hrun & Hlen & Hres).
        exists res, w', (Returned r :: new).
        rewrite <- app_assoc in Hrun, Hres. simpl in Hrun, Hres.
        split; [exact Hrun|]. split; [simpl; lia|].
        destruct Hres as [(r' & fails & Hr & Hs' & -> & Hf)
                         | (Hthrow & Hn & Hf)].
        -- left. exists r', (Returned r :: fails).
           repeat split; try assumption.
           constructor; [exact Hs | exact Hf].
        -- right. split; [exact Hthrow|]. split; [simpl; lia|].
           constructor; [exact Hs | exact Hf].
    + rewrite Hstep.
      rewrite <- (lastErrorOf_snoc log (Thrown e)).
      destruct (IH w1 (log ++ [Thrown e]))
        as (res & w' & new & Hrun & Hlen & Hres).
      exists res, w', (Thrown e :: new).
      rewrite <- app_assoc in Hrun, Hres. simpl in Hrun, Hres.
      split; [exact Hrun|]. split; [simpl; lia|].
      destruct Hres as [(r' & fails & Hr & Hs' & -> & Hf)
                       | (Hthrow & Hn & Hf)].
      * left. exists r', (Thrown e :: fails).
        repeat split; try assumption.
        constructor; [exact I | exact Hf].
      * right. split; [exact Hthrow|]. split; [simpl; lia|].
        constructor; [exact I | exact Hf].
Qed.

(** Keeping the log changes nothing of what the wrapper does. *)
Lemma retryLoop_erase (attempts : list Z) :
  forall (le : LastError) (w : W) (log : Log) res w' log',
    retryLoop (besideLog sleep) (logged send) maxRetries attempts le (w, log)
    = (res, (w', log')) ->
    retryLoop sleep send maxRetries attempts le w = (res, w').
Proof.
  induction attempts as [|attempt rest IH]; intros le w log res w' log'.
  - cbn. unfold throw. intros H. injection H as <- <- _. reflexivity.
  - rewrite !retryLoop_cons.
    unfold attemptOnce, tryCatch, bind, logged, besideLog, ret. simpl.
    destruct (send w) as [[r | e] w1].
    + destruct (success r).
      * intros H. injection H as <- <- _. reflexivity.
      * destruct (attempt <? maxRetries)%Z; apply IH.
    + apply IH.
Qed.

Lemma retryWith_logged (w : W) :
  exists (res : outcome (SendResult Json)) (w' : W) (log : Log),
    retryWith (besideLog sleep) (logged send) maxRetries (w, [])
    = (res, (w', log)) /\
    retryWith sleep send maxRetries w = (res, w') /\
    (length log <= Z.to_nat maxRetries)%nat /\
    ((exists r fails,
         res = Returned r /\ success r = true /\
         log = fails ++ [Returned r] /\ Forall undelivered fails)
     \/
     (res = Thrown (terminalError maxRetries (lastErrorOf log))
      /\ length log = Z.to_nat maxRetries /\ Forall undelivered log)).
Proof.
  unfold retryWith.
  destruct (retryLoop_logged (seqZ 1 maxRetries) w [])
    as (res & w' & log & Hrun & Hlen & Hres).
  rewrite length_seqZ in Hlen, Hres. simpl in Hrun, Hres.
  change (lastErrorOf []) with LastUndefined in Hrun.
  exists res, w', log. split; [exact Hrun|].
  split; [exact (retryLoop_erase _ _ _ _ _ _ _ Hrun)|].
  split; [exact Hlen | exact Hres].
Qed.

End Generic.

(** C5: the log holds what each invocation of the delivery call did, in
    order.  For a whole attempt limit from 0 to [Number.MAX_SAFE_INTEGER],
    the wrapper invokes the delivery call at most [maxRetries] times; when
    an invocation delivers, the wrapper returns that result at once (the
    log ends with it, everything before it failed); when none delivers, it
    has made exactly [maxRetries] invocations and throws an [Error] whose
    message is 'WhatsApp failed after <maxRetries> attempts. Last error:
    <last error>', the last error being the [error] text of the last
    invocation's failure result, or the string conversion of what the last
    invocation threw ('undefined' when there was no invocation).  The
    exported function is this wrapper around [sendBillingWhatsApp] for the
    same payload, with the limit the caller gives, 3 when the caller gives
    none. *)
Theorem C5_retry_wrapper :
  (forall (W Json : Type) (sleep : Delay -> W -> W)
          (send : M W (SendResult Json)) (maxRetries : Z) (w : W),
      (0 <= maxRetries <= MAX_SAFE_INTEGER)%Z ->
      exists (res : outcome (SendResult Json)) (w' : W)
             (log : list (outcome (SendResult Json))),
        retryWith (besideLog sleep) (logged send) maxRetries (w, [])
        = (res, (w', log)) /\
        retryWith sleep send maxRetries w = (res, w') /\
        (Z.of_nat (length log) <= maxRetries)%Z /\
        ((exists r fails,
             res = Returned r /\ success r = true /\
             log = fails ++ [Returned r] /\ Forall undelivered fails)
         \/
         (exists lastError : string,
             res = Thrown (ErrorObj "Error"
                             ("WhatsApp failed after " ++ pretty maxRetries
                              ++ " attempts. Last error: "
                              ++ lastError)%string) /\
             match last log with
             | None => lastError = "undefined"
             | Some (Returned (SendFailed error _)) => lastError = error
             | Some (Returned (SendOk _ _)) => False
             | Some (Thrown e) => lastError = toStringThrown e
             end /\
             Z.of_nat (length log) = maxRetries /\
             Forall undelivered log)))
  /\
  (forall (W Num Json : Type) (T : Text Num) (P : Provider W Num Json)
          (p : BillingWhatsAppParams Num),
      sendBillingWhatsAppWithRetry p None
      = retryWith WhatsApp.sleep (sendBillingWhatsApp p) 3 /\
      forall maxRetries : Z,
        sendBillingWhatsAppWithRetry p (Some maxRetries)
        = retryWith WhatsApp.sleep (sendBillingWhatsApp p) maxRetries).
Proof.
  split; [|intros; split; reflexivity].
  intros W Json sleep send maxRetries w [Hpos _].
  destruct (retryWith_logged sleep send maxRetries w)
    as (res & w' & log & Hrun & Hplain & Hlen & Hres).
  exists res, w', log.
  split; [exact Hrun|]. split; [exact Hplain|]. split; [lia|].
  destruct Hres as [Hok | (Hthrow & Hn & Hf)]; [left; exact Hok|].
  right. exists (showLastError (lastErrorOf log)).
  split; [exact Hthrow|]. split; [|split; [lia | exact Hf]].
  unfold lastErrorOf.
  destruct (last log) as [[[data messageId | error timestamp] | e] |] eqn:Hlast;
    try reflexivity.
  apply last_Some in Hlast as [fails ->].
  apply Forall_app in Hf as [_ Hf].
  apply Forall_inv in Hf. discriminate Hf.
Qed.

(** A stub that fails twice (once by a failure result, once by throwing)
    and then delivers: three invocations, and the delivered result comes
    back. *)
Lemma C5_retry_wrapper_witness :
  exists log,
    retryWith (besideLog noSleep) (logged playback) 3
              ([Returned (failedOnce "timeout");
                Thrown (mkError "socket hang up");
                Returned delivered;
                Returned (failedOnce "never reached")], [])
    = (Returned delivered, ([Returned (failedOnce "never reached")], log)) /\
    length log = 3%nat.
Proof.
  destruct (proj1 C5_retry_wrapper _ _ noSleep playback 3%Z
              [Returned (failedOnce "timeout");
               Thrown (mkError "socket hang up");
               Returned delivered;
               Returned (failedOnce "never reached")])
    as (res & w' & log & Hrun & _); [unfold MAX_SAFE_INTEGER; lia|].
  exists log. vm_compute in Hrun. injection Hrun as <- <- <-.
  split; reflexivity.
Defined.

Example always_failing_stub :
  retryWith noSleep playback 3
            [Returned (failedOnce "timeout");
             Returned (failedOnce "timeout");
             Returned (failedOnce "rate limited");
             Returned delivered]
  = (Thrown (mkError "WhatsApp failed after 3 attempts. Last error: rate limited"),
     [Returned delivered]).
Proof. vm_compute. reflexivity. Qed.

Example thrown_last_error_is_printed :
  fst (retryWith noSleep playback 2
                 [Returned (failedOnce "timeout");
                  Thrown (mkError "socket hang up")])
  = Thrown (mkError
      "WhatsApp failed after 2 attempts. Last error: Error: socket hang up").
Proof. vm_compute. reflexivity. Qed.

Example backoff_delays :
  pw_slept
    (snd (sendBillingWhatsAppWithRetry (T := zText) (P := scriptedProvider)
            (billFor "9876543210") None
            (providerWith (Some "token-1")
               [errorReply 500 "down"; errorReply 500 "down";
                errorReply 500 "down"])))
  = [Millis 2000; Millis 4000].
Proof. vm_compute. reflexivity. Qed.

End RetryFacts.

(* ===================================================================== *)
(** * Properties of the tracking update workflow                          *)
(* ===================================================================== *)

Module TrackingFacts.
Import Js JsFacts Courier Tracking Doubles.
Local Open Scope list_scope.

Lemma noting_run {W L A} (c : M W A) (note : outcome A -> list L)
      (w : W) (log : list L) o w' :
  c w = (o, w') -> noting c note (w, log) = (o, (w', log ++ note o)).
Proof. intros H. unfold noting. simpl. rewrite H. reflexivity. Qed.

Section Generic.
Context {W Num : Type} {E : Env W Num}.

(** Up to the guard: with a session, both fields present and the bill
    found, the [try] block goes on by the billing mode alone. *)
Lemma POST_try_found (request : Request) (w : W)
      session body bill w1 w2 :
  getServerSession w = (Returned (Some session), w1) ->
  json request = Returned body ->
  truthy (billId body) = true ->
  truthy (trackingNumber body) = true ->
  findFirst (parseInt (default "" (billId body)))
            (parseInt (user_id session)) w1
  = (Returned (Some bill), w2) ->
  POST_try request w
  = (if String.eqb (billingMode bill) "offline"
     then (Returned offlineResponse, w2)
     else updateAndNotify session (default "" (trackingNumber body))
                          (weight body) bill w2).
Proof.
  intros Hsession Hjson Hbill Htracking Hfound.
  unfold POST_try, bind at 1. rewrite Hsession.
  unfold bind at 1, lift. rewrite Hjson, Hbill, Htracking.
  cbn [negb orb]. cbv beta iota zeta.
  unfold bind at 1. rewrite Hfound.
  destruct (String.eqb (billingMode bill) "offline"); reflexivity.
Qed.


End Generic.

Section Traced.
Context {W Num : Type} (E : Env W Num).

Lemma traced_calls (request : Request) (w : W) res w' log :
  POST (E := traced E) request (w, []) = (res, (w', log)) ->
  CallShape log.
Proof.
  unfold POST, tryCatch, POST_try, POST_catch, respond, ret, bind, lift.
  cbn [getServerSession findFirst update sendOrderStatusWhatsApp
       parseInt parseFloat splitProducts traced].
  unfold noting. cbn [fst snd app].
  destruct (getServerSession w) as [[[session|] | e] w1];
    try (caught; intros H; injection H as _ _ <-; constructor).
  destruct (json request) as [body | e];
    try (caught; intros H; injection H as _ _ <-; constructor).
  destruct (negb (truthy (billId body)) || negb (truthy (trackingNumber body)));
    try (caught; intros H; injection H as _ _ <-; constructor).
  cbn [fst snd app].
  match goal with
  | |- context [findFirst ?billNo ?org w1] =>
      destruct (findFirst billNo org w1) as [[[bill|] | e] w2]
  end;
    try (caught; intros H; injection H as _ _ <-; constructor).
  destruct (String.eqb_spec (billingMode bill) "offline") as [Hoff | Hon];
    try (caught; intros H; injection H as _ _ <-; constructor).
  unfold updateAndNotify, notifyCustomer, respond, ret, bind, lift.
  cbn [getServerSession findFirst update sendOrderStatusWhatsApp
       parseInt parseFloat splitProducts traced].
  unfold noting. cbn [fst snd app].
  match goal with
  | |- context [update ?rowId ?data w2] =>
      destruct (update rowId data w2) as [[updatedBill | e] w3]
  end;
    try (caught; intros H; injection H as _ _ <-;
         (constructor; [exact Hon | left; reflexivity])).
  destruct (truthy (phoneOf updatedBill));
    try (caught; intros H; injection H as _ _ <-;
         (constructor; [exact Hon | left; reflexivity])).
  match goal with
  | |- context [splitProducts ?l] =>
      destruct (splitProducts l) as [parts | e]
  end;
    try (caught; intros H; injection H as _ _ <-;
         (constructor; [exact Hon | left; reflexivity])).
  cbn [fst snd app].
  match goal with
  | |- context [sendOrderStatusWhatsApp ?args w3] =>
      destruct (sendOrderStatusWhatsApp args w3) as [[u | e] w4]
  end;
    caught; intros H; injection H as _ _ <-; constructor;
    try exact Hon; right; eexists; reflexivity.
Qed.

End Traced.

(** C2: for an authorized request (session present, both fields given)
    whose bill is found with billing mode 'offline', the response is the
    400 of the guard and the only call made was the lookup: no update, no
    notification, the world is the one the lookup left.  In any run, an
    update call is made only for a bill that was found and is not
    offline. *)
Theorem C2_offline_bill_not_updated :
  forall (W Num : Type) (E : Env W Num),
    (forall (request : Request) (w : W) session body bill w1 w2,
        getServerSession w = (Returned (Some session), w1) ->
        json request = Returned body ->
        truthy (billId body) = true ->
        truthy (trackingNumber body) = true ->
        findFirst (parseInt (default "" (billId body)))
                  (parseInt (user_id session)) w1
        = (Returned (Some bill), w2) ->
        billingMode bill = "offline" ->
        POST request w = (Returned offlineResponse, w2) /\
        POST (E := traced E) request (w, [])
        = (Returned offlineResponse,
           (w2, [CallFindFirst (parseInt (default "" (billId body)))
                               (parseInt (user_id session))
                               (Returned (Some bill))])))
    /\
    (forall (request : Request) (w : W) res w' log rowId data,
        POST (E := traced E) request (w, []) = (res, (w', log)) ->
        In (CallUpdate rowId data) log ->
        exists billNo org bill,
          In (CallFindFirst billNo org (Returned (Some bill))) log /\
          billingMode bill <> "offline" /\ rowId = id bill).
Proof.
  intros W Num E. split.
  - intros request w session body bill w1 w2
           Hsession Hjson Hbill Htracking Hfound Hoffline.
    split.
    + unfold POST. apply tryCatch_returned.
      rewrite (POST_try_found request w session body bill w1 w2)
        by assumption.
      rewrite Hoffline. reflexivity.
    + unfold POST. apply tryCatch_returned.
      rewrite (POST_try_found (E := traced E) request (w, [])
                 session body bill (w1, [])
                 (w2, [CallFindFirst (parseInt (default "" (billId body)))
                                     (parseInt (user_id session))
                                     (Returned (Some bill))]));
        try assumption.
      * rewrite Hoffline. reflexivity.
      * exact (noting_run getServerSession (fun _ => []) w [] _ w1 Hsession).
      * exact (noting_run
                 (findFirst (parseInt (default "" (billId body)))
                            (parseInt (user_id session)))
                 (fun o => [CallFindFirst
                              (parseInt (default "" (billId body)))
                              (parseInt (user_id session)) o])
                 w1 [] _ w2 Hfound).
  - intros request w res w' log rowId data Hrun Hin.
    apply traced_calls in Hrun.
    destruct Hrun as [| billNo org found | billNo org bill data' rest Hon Hrest].
    + destruct Hin.
    + destruct Hin as [Habs | []]. discriminate Habs.
    + exists billNo, org, bill. split; [left; reflexivity|].
      split; [exact Hon|].
      destruct Hin as [Habs | [Hupd | Hin]]; [discriminate Habs | |].
      * injection Hupd as <- _. reflexivity.
      * destruct Hrest as [-> | [args ->]]; [destruct Hin|].
        destruct Hin as [Habs | []]. discriminate Habs.
Qed.

Lemma C2_offline_bill_not_updated_witness :
  POST (E := storeEnv recordingNotifier) shipRequest (storeOf "offline")
  = (Returned offlineResponse, storeOf "offline").
Proof.
  pose proof (C2_offline_bill_not_updated _ _ (storeEnv recordingNotifier))
    as [H _].
  refine (proj1 (H shipRequest (storeOf "offline")
                   {| user_id := "7" |}
                   {| billId := Some "31";
                      trackingNumber := Some "CT123456789IN";
                      weight := Some "2" |}
                   (billOf "offline") (storeOf "offline") (storeOf "offline")
                   _ _ _ _ _ _)); reflexivity.
Defined.

Section Response.
Context {W Num : Type} {E : Env W Num}.


End Response.



(** A notifier that rejects with [null]: the update stays applied, and
    the handler throws the TypeError of the [catch] block. *)
Example notifier_rejecting_with_null :
  let run := POST (E := storeEnv rejectingNotifier) shipRequest
                  (storeOf "online") in
  fst run
  = Thrown (ErrorObj "TypeError"
                     "Cannot read properties of null (reading 'message')")
  /\
  map (fun b => status b) (sw_rows (snd run)) = ["shipped"].
Proof. vm_compute. split; reflexivity. Qed.

End TrackingFacts.

(* ===================================================================== *)
(** * More on the courier classification and the URL lookup               *)
(* ===================================================================== *)

Module CourierCoverage.
Import Js Courier CourierFacts.

Lemma startsWith_longer (p s t : string) :
  (String.length p <= String.length s)%nat ->
  startsWith (s ++ t) p = startsWith s p.
Proof.
  revert s. induction p as [|a p IH]; intros s Hlen; [reflexivity|].
  destruct s as [|b s]; simpl in Hlen; [lia|].
  simpl. rewrite IH by lia. reflexivity.
Qed.

Lemma regex_longer (s t : string) :
  (5 <= String.length s)%nat ->
  test_10_not_000 (s ++ t) = test_10_not_000 s.
Proof.
  intros Hlen. destruct s as [|a [|b rest]]; simpl in Hlen; try lia.
  change (test_10_not_000 (String a (String b rest) ++ t))
    with (Ascii.eqb a "1" && Ascii.eqb b "0"
          && negb (startsWith (rest ++ t) "000")).
  rewrite (startsWith_longer "000" rest t) by (simpl; lia).
  reflexivity.
Qed.

(** X1: Only the first five characters of a tracking number decide its
    courier: whatever follows them changes nothing. *)
Theorem courier_decided_by_first_five (s t : string) :
  (5 <= String.length s)%nat ->
  determineShippingPartner (s ++ t) = determineShippingPartner s.
Proof.
  intros Hlen. unfold determineShippingPartner.
  rewrite (regex_longer s t Hlen).
  rewrite !(startsWith_longer _ s t) by (simpl; lia).
  reflexivity.
Qed.

Lemma courier_decided_by_first_five_witness :
  determineShippingPartner ("10000" ++ "99IN") = determineShippingPartner "10000".
Proof.
  apply (courier_decided_by_first_five "10000" "99IN"). simpl. lia.
Defined.

(** X2: The labels the classifier can return are exactly the twelve couriers
    and "Unknown": it returns nothing else, and each of them is returned
    for some tracking number (no rule is shadowed by the rules above
    it). *)
Theorem courier_labels_exact :
  (forall s, In (determineShippingPartner s)
                (mappedCouriers ++ unmappedLabels)%list) /\
  (forall label, In label (mappedCouriers ++ unmappedLabels)%list ->
                 exists s, determineShippingPartner s = label).
Proof.
  split; [exact classifier_range|].
  intros label H. unfold mappedCouriers, unmappedLabels in H.
  simpl in H.
  destruct H as [<- | H]; [exists "CT1"; reflexivity|].
  destruct H as [<- | H]; [exists "581"; reflexivity|].
  destruct H as [<- | H]; [exists "C11"; reflexivity|].
  destruct H as [<- | H]; [exists "5001"; reflexivity|].
  destruct H as [<- | H]; [exists "S1"; reflexivity|].
  destruct H as [<- | H]; [exists "71"; reflexivity|].
  destruct H as [<- | H]; [exists "331"; reflexivity|].
  destruct H as [<- | H]; [exists "EP1"; reflexivity|].
  destruct H as [<- | H]; [exists "141"; reflexivity|].
  destruct H as [<- | H]; [exists "TRZ1"; reflexivity|].
  destruct H as [<- | H]; [exists "SM1"; reflexivity|].
  destruct H as [<- | H]; [exists "JT1"; reflexivity|].
  destruct H as [<- | H]; [exists "ZZ1"; reflexivity|].
  destruct H.
Qed.

Lemma courier_labels_exact_witness :
  exists s, determineShippingPartner s = "XPRESSBEES".
Proof.
  apply (proj2 courier_labels_exact "XPRESSBEES").
  unfold mappedCouriers, unmappedLabels. simpl. tauto.
Defined.

Lemma eqb_not_member (a c : ascii) (l : list ascii) :
  In a l -> ~ In c l -> Ascii.eqb a c = false.
Proof.
  intros Ha Hc. destruct (Ascii.eqb_spec a c) as [->|]; [contradiction|].
  reflexivity.
Qed.

(** X3: A tracking number that is empty, or whose first character is none of
    C, 5, 1, S, 3, E, 7, J, T, is "Unknown" (lower-case prefixes
    included: the tests are case-sensitive). *)
Theorem courier_unknown_first_character :
  determineShippingPartner "" = "Unknown" /\
  forall (c : ascii) (rest : string),
    ~ In c ["C"; "5"; "1"; "S"; "3"; "E"; "7"; "J"; "T"]%char ->
    determineShippingPartner (String c rest) = "Unknown".
Proof.
  split; [reflexivity|].
  intros c rest Hc.
  assert (E : forall a, In a ["C"; "5"; "1"; "S"; "3"; "E"; "7"; "J"; "T"]%char ->
                        Ascii.eqb a c = false).
  { intros a Ha. exact (eqb_not_member a c _ Ha Hc). }
  unfold determineShippingPartner, test_10_not_000. cbn [startsWith].
  assert (E1 : Ascii.eqb c "1" = false).
  { rewrite Ascii.eqb_sym. apply E. simpl. tauto. }
  rewrite !E by (simpl; tauto).
  destruct rest; rewrite ?E1; reflexivity.
Qed.

Lemma courier_unknown_first_character_witness :
  determineShippingPartner "ct123456789in" = "Unknown".
Proof.
  apply (proj2 courier_unknown_first_character "c"%char "t123456789in").
  simpl. intros H.
  repeat (destruct H as [H | H]; [discriminate H|]). destruct H.
Defined.

(** X4: Where prefixes overlap, the order of the rules decides.  After "1":
    "10" is TRACKON, "14" is XPRESSBEES, anything else SHIP ROCKET.
    After "S": "SM" is SINGPOST, "SR" is EKART, anything else
    SHIP ROCKET.  After "C": "CT" is INDIA POST, "C1" is DTDC, anything
    else "Unknown". *)
Theorem courier_overlapping_prefixes (c : ascii) (rest : string) :
  determineShippingPartner (String "1" (String c rest))
  = (if Ascii.eqb c "0" then "TRACKON"
     else if Ascii.eqb c "4" then "XPRESSBEES"
     else "SHIP ROCKET") /\
  determineShippingPartner (String "S" (String c rest))
  = (if Ascii.eqb c "M" then "SINGPOST"
     else if Ascii.eqb c "R" then "EKART"
     else "SHIP ROCKET") /\
  determineShippingPartner (String "C" (String c rest))
  = (if Ascii.eqb c "T" then "INDIA POST"
     else if Ascii.eqb c "1" then "DTDC"
     else "Unknown") /\
  determineShippingPartner "1" = "SHIP ROCKET" /\
  determineShippingPartner "S" = "SHIP ROCKET" /\
  determineShippingPartner "C" = "Unknown".
Proof.
  split; [|split; [|split; [|repeat split]]].
  - destruct (Ascii.eqb_spec c "0") as [-> | H0].
    + apply starts_10_trackon. reflexivity.
    + unfold determineShippingPartner, test_10_not_000. cbn [startsWith].
      rewrite (Ascii.eqb_sym "0" c).
      destruct (Ascii.eqb_spec c "0") as [|_]; [contradiction|].
      rewrite (Ascii.eqb_sym "4" c).
      destruct (Ascii.eqb c "4"); reflexivity.
  - unfold determineShippingPartner, test_10_not_000. cbn [startsWith].
    rewrite (Ascii.eqb_sym "M" c), (Ascii.eqb_sym "R" c).
    destruct (Ascii.eqb c "M"); [reflexivity|].
    destruct (Ascii.eqb c "R"); reflexivity.
  - unfold determineShippingPartner, test_10_not_000. cbn [startsWith].
    rewrite (Ascii.eqb_sym "T" c), (Ascii.eqb_sym "1" c).
    destruct (Ascii.eqb c "T"); [reflexivity|].
    destruct (Ascii.eqb c "1"); reflexivity.
Qed.

Lemma url_table_entries (p u : string) :
  urls !! p = Some u ->
  In p mappedCouriers /\ u <> "" /\ startsWith u "https://" = true.
Proof.
  intros H. unfold urls in H.
  apply elem_of_list_to_map_2, list_elem_of_In in H.
  simpl in H.
  repeat (destruct H as [H | H];
          [injection H as <- <-;
           split; [unfold mappedCouriers; simpl; tauto|];
           split; [discriminate | reflexivity]|]).
  destruct H.
Qed.

Lemma url_table_misses (p : string) :
  ~ In p mappedCouriers -> urls !! p = None.
Proof.
  intros H. destruct (urls !! p) as [u|] eqn:Hu; [|reflexivity].
  destruct (url_table_entries p u Hu) as [Hin _]. contradiction.
Qed.

(** X5: For any label that is not the name of a member inherited from
    [Object.prototype] ('constructor', 'toString', '__proto__', ...),
    [getTrackingUrl] gives the generic URL exactly when the label is not
    one of the ten of the table (a label in another case, or with a space
    too many, gets the generic URL). *)
Theorem generic_url_iff_unlisted (partner number : string) :
  ~ In partner objectPrototypeMembers ->
  (getTrackingUrl partner number = genericTrackingUrl
   <-> ~ In partner mappedCouriers).
Proof.
  intros _. split.
  - intros Hgen Hin.
    destruct (url_lookup_cases partner Hin) as (u & Hu & Hne & Hdiff).
    unfold getTrackingUrl in Hgen.
    rewrite Hu, (or_else_some _ _ Hne) in Hgen. contradiction.
  - intros Hout. unfold getTrackingUrl.
    rewrite (url_table_misses partner Hout). reflexivity.
Qed.

Lemma not_listed (label : string) (labels : list string) :
  forallb (fun l => negb (String.eqb label l)) labels = true ->
  ~ In label labels.
Proof.
  intros Hall Hin. rewrite forallb_forall in Hall.
  apply Hall in Hin. rewrite String.eqb_refl in Hin. discriminate Hin.
Qed.

Lemma generic_url_iff_unlisted_witness :
  getTrackingUrl "dtdc" "C1234" = genericTrackingUrl.
Proof.
  apply (proj2 (generic_url_iff_unlisted "dtdc" "C1234"
                  (not_listed "dtdc" objectPrototypeMembers eq_refl))).
  apply not_listed. reflexivity.
Defined.

(** X6: For any label that is not the name of a member inherited from
    [Object.prototype], the URL returned is not empty and is an https
    address. *)
Theorem tracking_url_is_https (partner number : string) :
  ~ In partner objectPrototypeMembers ->
  getTrackingUrl partner number <> "" /\
  startsWith (getTrackingUrl partner number) "https://" = true.
Proof.
  intros _. unfold getTrackingUrl.
  destruct (urls !! partner) as [u|] eqn:Hu.
  - destruct (url_table_entries partner u Hu) as (_ & Hne & Hhttps).
    rewrite (or_else_some _ _ Hne). split; assumption.
  - split; [discriminate | reflexivity].
Qed.

Lemma tracking_url_is_https_witness :
  startsWith (getTrackingUrl "J&T" "JT0012345678") "https://" = true.
Proof.
  apply (proj2 (tracking_url_is_https "J&T" "JT0012345678"
                  (not_listed "J&T" objectPrototypeMembers eq_refl))).
Defined.

End CourierCoverage.

(* ===================================================================== *)
(** * More on the tracking handlers                                       *)
(* ===================================================================== *)

Module HandlerCoverage.
Import Js JsFacts Courier Tracking TrackingRead Doubles ReadDoubles.
Local Open Scope list_scope.

(** The data built under the logging collaborators are the data built
    under the plain ones. *)
Ltac same_data :=
  repeat match goal with
         | |- context [@trackingUpdate ?V ?N (@traced ?U ?N ?E) ?a ?b] =>
             change (@trackingUpdate V N (@traced U N E) a b)
               with (@trackingUpdate U N E a b)
         | |- context [@statusArgsFor ?V ?N (@traced ?U ?N ?E) ?a ?b ?c ?d ?e] =>
             change (@statusArgsFor V N (@traced U N E) a b c d e)
               with (@statusArgsFor U N E a b c d e)
         end.

(** Split on what the next collaborator call does. *)
Ltac split_call :=
  cbn [fst snd app] in *; same_data;
  match goal with
  | |- context [messageOf ?e] =>
      is_var e;
      destruct (messageOf e) as [?message | ?readError] eqn:?
  | |- context [@getServerSession ?W ?N ?E ?w] =>
      is_var w;
      destruct (@getServerSession W N E w) as [[[?session|] | ?e] ?w] eqn:?
  | |- context [json ?r] =>
      destruct (json r) as [?body | ?e] eqn:?
  | |- context [billIdParam ?r] =>
      destruct (billIdParam r) as [?billId | ?e] eqn:?
  | |- context [@findFirst ?W ?N ?E ?a ?b ?w] =>
      is_var w;
      destruct (@findFirst W N E a b w) as [[[?bill|] | ?e] ?w] eqn:?
  | |- context [@findFirstForDisplay ?W ?N ?V ?R ?a ?b ?w] =>
      is_var w;
      destruct (@findFirstForDisplay W N V R a b w)
        as [[[?bill|] | ?e] ?w] eqn:?
  | |- context [@update ?W ?N ?E ?a ?b ?w] =>
      is_var w;
      destruct (@update W N E a b w) as [[?updatedBill | ?e] ?w] eqn:?
  | |- context [splitProducts ?l] =>
      destruct (splitProducts l) as [?parts | ?e] eqn:?
  | |- context [@sendOrderStatusWhatsApp ?W ?N ?E ?a ?w] =>
      is_var w;
      destruct (@sendOrderStatusWhatsApp W N E a w) as [[?u | ?e] ?w] eqn:?
  | |- context [if ?b then _ else _] => destruct b eqn:?
  end.

(** Unfold a handler and split on everything its collaborators can do. *)
Ltac run_handler :=
  unfold POST, GET, tryCatch, POST_try, GET_try, POST_catch, GET_catch,
    updateAndNotify, notifyCustomer, respond, ret, bind, lift, throw;
  cbn [getServerSession findFirst update sendOrderStatusWhatsApp
       parseInt parseFloat splitProducts traced
       handlerEnv findFirstForDisplay tracedRead];
  unfold noting; cbv zeta;
  repeat split_call;
  cbn [fst snd app] in *.

Lemma truthy_some (o : option string) :
  truthy o = true -> o = Some (default "" o) /\ default "" o <> "".
Proof.
  destruct o as [t|]; simpl; [|discriminate].
  intros H. split; [reflexivity|].
  intros ->. discriminate H.
Qed.

Lemma both_given (a b : option string) :
  negb (truthy a) || negb (truthy b) = false ->
  truthy a = true /\ truthy b = true.
Proof.
  intros H. apply orb_false_elim in H as [Ha Hb].
  apply negb_false_iff in Ha, Hb. split; assumption.
Qed.

Section Post.
Context {W Num : Type} (E : Env W Num).

(** Keeping the log changes nothing of what the handler does. *)
Lemma POST_traced_erase (request : Request) (w : W) (log : list (Call Num)) :
  POST request w
  = (fst (POST (E := traced E) request (w, log)),
     fst (snd (POST (E := traced E) request (w, log)))).
Proof.
  run_handler; reflexivity.
Qed.

(** X7: Whatever the collaborators do, [POST] answers, with status 200,
    400, 401, 404 or 500 and a payload that goes with the status ([data]
    only with 200, [message] only with 500, [error] with the rest), in
    every case but one: when the [try] block threw [null] or [undefined],
    reading [error.message] in the [catch] throws a TypeError, which
    [POST] throws. *)
Theorem POST_always_responds (request : Request) (w : W) :
  (exists resp w',
      POST request w = (Returned resp, w') /\
      match r_payload resp with
      | SuccessPayload _ => r_status resp = 200%Z
      | FailurePayload _ => r_status resp = 500%Z
      | ErrorPayload _ => In (r_status resp) [400%Z; 401%Z; 404%Z]
      end) \/
  (exists undefined w',
      POST_try request w = (Thrown (Nullish undefined), w') /\
      POST request w = (Thrown (nullishRead undefined "message"), w')).
Proof.
  run_handler;
    first [ left; eexists _, _; (split; [reflexivity|]); simpl; tauto
          | right;
            match goal with
            | H : messageOf ?e = Thrown _ |- _ =>
                destruct e; try discriminate H; injection H as <-
            end;
            eexists _, _; split; reflexivity ].
Qed.

(** X8: A request without a session is answered 401, and one without a bill id
    or a tracking number (absent or empty) 400, before the store is
    touched: no lookup, no update, no notification. *)
Theorem POST_rejects_before_store (request : Request) (w w1 : W) :
  (getServerSession w = (Returned None, w1) ->
   POST (E := traced E) request (w, [])
   = (Returned {| r_status := 401;
                  r_payload := ErrorPayload "Unauthorized" |}, (w1, []))) /\
  (forall session body,
      getServerSession w = (Returned (Some session), w1) ->
      json request = Returned body ->
      truthy (billId body) = false \/ truthy (trackingNumber body) = false ->
      POST (E := traced E) request (w, [])
      = (Returned {| r_status := 400;
                     r_payload :=
                       ErrorPayload "Bill ID and tracking number are required" |},
         (w1, []))).
Proof.
  split.
  - intros Hs. unfold POST, tryCatch, POST_try, bind.
    cbn [getServerSession traced]. unfold noting. cbn [fst snd].
    rewrite Hs. reflexivity.
  - intros session body Hs Hj Hmissing.
    unfold POST, tryCatch, POST_try, bind, lift.
    cbn [getServerSession traced]. unfold noting. cbn [fst snd].
    rewrite Hs, Hj.
    destruct Hmissing as [-> | ->]; [|rewrite orb_true_r]; reflexivity.
Qed.

(** X9: A bill that the lookup does not find (none with that number, or none
    in the caller's organisation) is answered 404, and nothing but the
    lookup has been called. *)
Theorem POST_not_found (request : Request) (w w1 w2 : W) session body :
  getServerSession w = (Returned (Some session), w1) ->
  json request = Returned body ->
  truthy (billId body) = true ->
  truthy (trackingNumber body) = true ->
  findFirst (parseInt (default "" (billId body)))
            (parseInt (user_id session)) w1
  = (Returned None, w2) ->
  POST (E := traced E) request (w, [])
  = (Returned {| r_status := 404;
                 r_payload := ErrorPayload "Bill not found" |},
     (w2, [CallFindFirst (parseInt (default "" (billId body)))
                         (parseInt (user_id session)) (Returned None)])).
Proof.
  intros Hs Hj Hb Ht Hf.
  unfold POST, tryCatch, POST_try, bind, lift.
  cbn [getServerSession findFirst parseInt traced]. unfold noting.
  cbn [fst snd app].
  rewrite Hs, Hj, Hb, Ht. cbn [negb orb fst snd app]. cbv zeta.
  rewrite Hf. reflexivity.
Qed.

(** X10: What the update of a found bill that is not offline throws (a
    storage error) is answered 500 with its message, or 'Internal Error'
    when it has none or an empty one; when it throws [null] or
    [undefined] the handler throws the TypeError of reading
    [error.message].  In every case no notification is sent. *)
Theorem POST_update_failure (request : Request) (w w1 w2 w3 : W)
        session body bill e :
  getServerSession w = (Returned (Some session), w1) ->
  json request = Returned body ->
  truthy (billId body) = true ->
  truthy (trackingNumber body) = true ->
  findFirst (parseInt (default "" (billId body)))
            (parseInt (user_id session)) w1
  = (Returned (Some bill), w2) ->
  billingMode bill <> "offline" ->
  update (id bill)
         (trackingUpdate (default "" (trackingNumber body)) (weight body)) w2
  = (Thrown e, w3) ->
  POST (E := traced E) request (w, [])
  = (match e with
     | ErrorObj _ message =>
         Returned {| r_status := 500;
                     r_payload :=
                       FailurePayload
                         (or_else (Some message) "Internal Error") |}
     | NonError _ message =>
         Returned {| r_status := 500;
                     r_payload :=
                       FailurePayload (or_else message "Internal Error") |}
     | Nullish undefined => Thrown (nullishRead undefined "message")
     end,
     (w3, [CallFindFirst (parseInt (default "" (billId body)))
                         (parseInt (user_id session)) (Returned (Some bill));
           CallUpdate (id bill)
                      (trackingUpdate (default "" (trackingNumber body))
                                      (weight body))])).
Proof.
  intros Hs Hj Hb Ht Hf Hon Hu.
  unfold POST, tryCatch, POST_try, POST_catch, updateAndNotify, bind, lift.
  cbn [getServerSession findFirst update parseInt traced]. unfold noting.
  cbn [fst snd app].
  rewrite Hs, Hj, Hb, Ht. cbn [negb orb fst snd app]. cbv zeta.
  rewrite Hf. cbn [fst snd app].
  destruct (String.eqb_spec (billingMode bill) "offline"); [contradiction|].
  cbn [fst snd app]. same_data. rewrite Hu. destruct e; reflexivity.
Qed.

(** X11: Every lookup the handler makes is keyed by the bill number of the
    request and by the organisation of the caller's session: a bill of
    another organisation is never looked up. *)
Theorem POST_lookup_scoped (request : Request) (w : W) res w' log
        billNo org found :
  POST (E := traced E) request (w, []) = (res, (w', log)) ->
  In (CallFindFirst billNo org found) log ->
  exists session w1 body,
    getServerSession w = (Returned (Some session), w1) /\
    json request = Returned body /\
    truthy (billId body) = true /\
    billNo = parseInt (default "" (billId body)) /\
    org = parseInt (user_id session).
Proof.
  intros Hrun. revert Hrun. run_handler; intros Hrun Hin;
    injection Hrun as <- <- <-; simpl in Hin;
    repeat (destruct Hin as [Hin | Hin]; try discriminate Hin);
    try contradiction;
    injection Hin as <- <- <-;
    match goal with H : _ || _ = false |- _ => apply both_given in H as [? ?] end;
    eauto 10.
Qed.

(** X12: Every update the handler issues writes the tracking number of the
    request, which is not empty, the status 'shipped', and as weight the
    parsed number of the request, or null when the request carries none
    (or an empty one). *)
Theorem POST_update_data (request : Request) (w : W) res w' log rowId data :
  POST (E := traced E) request (w, []) = (res, (w', log)) ->
  In (CallUpdate rowId data) log ->
  exists body,
    json request = Returned body /\
    trackingNumber body = Some (u_trackingNumber data) /\
    u_trackingNumber data <> "" /\
    u_status data = "shipped" /\
    u_weight data
    = (if truthy (weight body)
       then Some (parseFloat (default "" (weight body))) else None).
Proof.
  intros Hrun. revert Hrun. run_handler; intros Hrun Hin;
    injection Hrun as <- <- <-; simpl in Hin;
    repeat (destruct Hin as [Hin | Hin]; try discriminate Hin);
    try contradiction;
    injection Hin as <- <-;
    match goal with H : _ || _ = false |- _ => apply both_given in H as [_ Ht] end;
    destruct (truthy_some _ Ht) as [Hsome Hne];
    eexists; (split; [reflexivity|]);
    (split; [exact Hsome|]); (split; [exact Hne|]);
    split; reflexivity.
Qed.

(** X13: Every notification follows an update that returned and is built
    from the request, the session and the bill that update returned: it
    is for status 'shipped' and the organisation of the session, goes to
    the customer phone of the updated bill, which is not empty, carries
    the shop name of the updated bill's organisation in the first and in
    the eighth variable, the first two parts of the split product list in
    the second and third, the courier the tracking number classifies to
    in the fourth, the tracking number of the request, which is the one
    just written, in the fifth, the weight followed by ' Kg' (or nothing)
    in the sixth, and that courier's tracking URL in the seventh. *)
Theorem POST_notification_data (request : Request) (w : W) res w' log args :
  POST (E := traced E) request (w, []) = (res, (w', log)) ->
  In (CallNotify args) log ->
  let v := sa_whatsappVariables args in
  (exists rowId data,
      In (CallUpdate rowId data) log /\ var5 v = u_trackingNumber data) /\
  sa_status args = "shipped" /\
  sa_phone args <> "" /\
  var4 v = determineShippingPartner (var5 v) /\
  var7 v = getTrackingUrl (var4 v) (var5 v) /\
  var1 v = var8 v /\
  exists session w1 body rowId data w2 w3 updatedBill parts,
    getServerSession w = (Returned (Some session), w1) /\
    json request = Returned body /\
    In (CallUpdate rowId data) log /\
    update rowId data w2 = (Returned updatedBill, w3) /\
    splitProducts (productListOf updatedBill) = Returned parts /\
    sa_organisationId args = parseInt (user_id session) /\
    phoneOf updatedBill = Some (sa_phone args) /\
    var1 v = shopName (organisation updatedBill) /\
    var2 v = default "" (parts !! 0%nat) /\
    var3 v = default "" (parts !! 1%nat) /\
    trackingNumber body = Some (var5 v) /\
    u_trackingNumber data = var5 v /\
    var6 v = (if truthy (weight body)
              then (default "" (weight body) ++ " Kg")%string else "") /\
    var8 v = shopName (organisation updatedBill).
Proof.
  intros Hrun. revert Hrun. run_handler; intros Hrun Hin;
    injection Hrun as <- <- <-; simpl in Hin;
    repeat (destruct Hin as [Hin | Hin]; try discriminate Hin);
    try contradiction;
    injection Hin as <-;
    match goal with
    | H : truthy (phoneOf _) = true |- _ =>
        destruct (truthy_some _ H) as [Hsome Hphone]
    end;
    match goal with
    | H : _ || _ = false |- _ => apply both_given in H as [_ Ht]
    end;
    destruct (truthy_some _ Ht) as [Hnumber _];
    (split; [eexists _, _; split; [simpl; right; left; reflexivity
                                  | reflexivity]|]);
    (split; [reflexivity|]); (split; [exact Hphone|]);
    do 3 (split; [reflexivity|]);
    eexists _, _, _, _, _, _, _, _, _;
    do 2 (split; [reflexivity|]);
    (split; [simpl; right; left; reflexivity|]);
    (split; [eassumption|]); (split; [eassumption|]);
    (split; [reflexivity|]); (split; [exact Hsome|]);
    do 3 (split; [reflexivity|]);
    (split; [exact Hnumber|]);
    repeat split; reflexivity.
Qed.

(** X14: A 200 answer is given only after the lookup found a bill that is not
    offline and the update of that very bill returned; the bill reported
    is the one the update returned. *)
Theorem POST_success_means_updated (request : Request) (w : W) resp w' log :
  POST (E := traced E) request (w, []) = (Returned resp, (w', log)) ->
  r_status resp = 200%Z ->
  exists billNo org bill data rest w2 w3 updatedBill,
    log = CallFindFirst billNo org (Returned (Some bill))
          :: CallUpdate (id bill) data :: rest /\
    billingMode bill <> "offline" /\
    update (id bill) data w2 = (Returned updatedBill, w3) /\
    r_payload resp = SuccessPayload updatedBill.
Proof.
  intros Hrun. revert Hrun. run_handler; intros Hrun Hst;
    try discriminate Hrun;
    injection Hrun as <- <- <-; try discriminate Hst;
    match goal with
    | H : (billingMode ?b =? "offline") = false |- _ =>
        apply String.eqb_neq in H
    end;
    eexists _, _, _, _, _, _, _, _;
    (split; [reflexivity|]); (split; [eassumption|]);
    (split; [eassumption|]); reflexivity.
Qed.

End Post.

Section Get.
Context {W Num View : Type} (R : ReadEnv W Num View).

(** X15: Whatever the collaborators do, [GET] only reads: it makes at most
    one call, the display query, and never an update or a notification.
    It answers with a payload that goes with its status ([data] only with
    200 and after the query, [message] only with 500, [error] with 400,
    401 or 404), in every case but one: when the [try] block threw [null]
    or [undefined], reading [error.message] in the [catch] throws a
    TypeError, which [GET] throws.  Keeping the log changes nothing of
    what the handler does. *)
Theorem GET_only_reads (request : GetRequest) (w : W) :
  exists res w' log,
    GET (R := tracedRead R) request (w, []) = (res, (w', log)) /\
    GET request w = (res, w') /\
    (log = [] \/ exists billNo org, log = [DisplayLookup billNo org]) /\
    match res with
    | Returned resp =>
        match g_payload resp with
        | GetSuccess _ => g_status resp = 200%Z /\ log <> []
        | GetFailure _ => g_status resp = 500%Z
        | GetError _ => In (g_status resp) [400%Z; 401%Z; 404%Z]
        end
    | Thrown readError =>
        exists undefined,
          GET_try request w = (Thrown (Nullish undefined), w') /\
          readError = nullishRead undefined "message"
    end.
Proof.
  run_handler; eexists _, _, _;
    (split; [reflexivity|]); (split; [reflexivity|]);
    (split; [first [left; reflexivity | right; eexists _, _; reflexivity]|]);
    simpl;
    first [ tauto
          | split; [reflexivity | discriminate]
          | match goal with
            | H : messageOf ?e = Thrown _ |- _ =>
                destruct e; try discriminate H; injection H as <-
            end;
            eexists; split; reflexivity ].
Qed.

(** X16: With a session and a bill id given, the answer follows the display
    query, which is keyed by the bill number and the caller's
    organisation: 200 with the bill found, 404 when none is found, 500
    with the message of what the query threw (or 'Failed to fetch bill'
    when it has none or an empty one); when the query throws [null] or
    [undefined], [GET] throws the TypeError of reading [error.message].
    Without a bill id (absent or empty) the answer is 400 and no query is
    made. *)
Theorem GET_answers (request : GetRequest) (w w1 : W) session billId :
  getServerSession w = (Returned (Some session), w1) ->
  billIdParam request = Returned billId ->
  (truthy billId = false ->
   GET request w
   = (Returned {| g_status := 400;
                  g_payload := GetError "Bill ID is required" |}, w1)) /\
  (truthy billId = true ->
   GET request w
   = match findFirstForDisplay (parseInt (default "" billId))
                               (parseInt (user_id session)) w1 with
     | (Returned (Some bill), w2) =>
         (Returned {| g_status := 200; g_payload := GetSuccess bill |}, w2)
     | (Returned None, w2) =>
         (Returned {| g_status := 404;
                      g_payload := GetError "Bill not found" |}, w2)
     | (Thrown (ErrorObj _ message), w2) =>
         (Returned {| g_status := 500;
                      g_payload :=
                        GetFailure
                          (or_else (Some message) "Failed to fetch bill") |},
          w2)
     | (Thrown (NonError _ message), w2) =>
         (Returned {| g_status := 500;
                      g_payload :=
                        GetFailure
                          (or_else message "Failed to fetch bill") |},
          w2)
     | (Thrown (Nullish undefined), w2) =>
         (Thrown (nullishRead undefined "message"), w2)
     end).
Proof.
  intros Hs Hb.
  unfold GET, tryCatch, GET_try, GET_catch, bind, lift, ret.
  rewrite Hs, Hb. split; intros ->; cbn [negb]; [reflexivity|].
  destruct (findFirstForDisplay _ _ w1) as [[[bill|] | [] ] w2]; reflexivity.
Qed.

End Get.

Lemma POST_rejects_before_store_witness :
  POST (E := traced (storeEnv recordingNotifier))
       {| json := Returned {| billId := Some "31";
                              trackingNumber := Some "";
                              weight := None |} |}
       (storeOf "online", [])
  = (Returned {| r_status := 400;
                 r_payload :=
                   ErrorPayload "Bill ID and tracking number are required" |},
     (storeOf "online", [])).
Proof.
  apply (proj2 (POST_rejects_before_store (storeEnv recordingNotifier)
                  _ (storeOf "online") (storeOf "online"))
               {| user_id := "7" |}
               {| billId := Some "31"; trackingNumber := Some "";
                  weight := None |});
    [reflexivity | reflexivity | right; reflexivity].
Defined.

Lemma POST_not_found_witness :
  fst (POST (E := traced (storeEnv recordingNotifier))
            {| json := Returned {| billId := Some "32";
                                   trackingNumber := Some "CT1";
                                   weight := None |} |}
            (storeOf "online", []))
  = Returned {| r_status := 404;
                r_payload := ErrorPayload "Bill not found" |}.
Proof.
  rewrite (POST_not_found (storeEnv recordingNotifier) _
             (storeOf "online") (storeOf "online") (storeOf "online")
             {| user_id := "7" |}
             {| billId := Some "32"; trackingNumber := Some "CT1";
                weight := None |});
    reflexivity.
Defined.

Lemma POST_update_failure_witness :
  fst (POST (E := traced lostConnectionEnv) shipRequest
            (storeOf "online", []))
  = Returned {| r_status := 500;
                r_payload := FailurePayload "Connection lost" |}.
Proof.
  rewrite (POST_update_failure lostConnectionEnv shipRequest
             (storeOf "online") (storeOf "online") (storeOf "online")
             (storeOf "online") {| user_id := "7" |} shipBody
             (billOf "online") (mkError "Connection lost"));
    first [reflexivity | discriminate].
Defined.

Lemma POST_lookup_scoped_witness :
  exists session w1 body,
    getServerSession (Env := storeEnv recordingNotifier) (storeOf "online")
    = (Returned (Some session), w1) /\
    json shipRequest = Returned body /\
    truthy (billId body) = true /\
    31%Z = parseDecimal (default "" (billId body)) /\
    7%Z = parseDecimal (user_id session).
Proof.
  eapply (POST_lookup_scoped (storeEnv recordingNotifier) shipRequest
            (storeOf "online") _ _ _ 31%Z 7%Z
            (Returned (Some (billOf "online")))).
  - reflexivity.
  - left. reflexivity.
Defined.

Lemma POST_update_data_witness :
  exists body,
    json shipRequest = Returned body /\
    trackingNumber body = Some "CT123456789IN" /\
    "CT123456789IN" <> "" /\
    "shipped" = "shipped" /\
    Some 2%Z
    = (if truthy (weight body)
       then Some (parseDecimal (default "" (weight body))) else None).
Proof.
  eapply (POST_update_data (storeEnv recordingNotifier) shipRequest
            (storeOf "online") _ _ _ 501%Z
            (trackingUpdate (E := storeEnv recordingNotifier)
                            "CT123456789IN" (Some "2"))).
  - reflexivity.
  - right. left. reflexivity.
Defined.

Lemma POST_notification_data_witness :
  exists args : StatusArgs Z,
    sa_phone args = "9876543210" /\
    var4 (sa_whatsappVariables args) = "INDIA POST" /\
    var7 (sa_whatsappVariables args)
    = getTrackingUrl (var4 (sa_whatsappVariables args))
                     (var5 (sa_whatsappVariables args)).
Proof.
  exists (statusArgsFor (E := storeEnv recordingNotifier)
            {| user_id := "7" |} "CT123456789IN" (Some "2")
            (applyUpdate
               (trackingUpdate (E := storeEnv recordingNotifier)
                               "CT123456789IN" (Some "2"))
               (billOf "online"))
            ["Soap, Oil"]).
  split; [reflexivity|]. split; [reflexivity|].
  eapply (POST_notification_data (storeEnv recordingNotifier) shipRequest
            (storeOf "online")).
  - reflexivity.
  - right. right. left. reflexivity.
Defined.

Lemma POST_success_means_updated_witness :
  exists bill updatedBill : Bill Z,
    billingMode bill <> "offline" /\
    SuccessPayload
      (applyUpdate
         (trackingUpdate (E := storeEnv recordingNotifier)
                         "CT123456789IN" (Some "2"))
         (billOf "online"))
    = SuccessPayload updatedBill.
Proof.
  edestruct (POST_success_means_updated (storeEnv recordingNotifier)
               shipRequest (storeOf "online"))
    as (billNo & org & bill & data & rest & w2 & w3 & updatedBill
        & Hlog & Hon & Hupdate & Hpayload).
  - reflexivity.
  - reflexivity.
  - exists bill, updatedBill. split; [exact Hon | exact Hpayload].
Defined.

Lemma GET_answers_witness :
  GET (R := storeReadEnv) (fetchBill (Some "31")) (storeOf "online")
  = (Returned {| g_status := 200;
                 g_payload := GetSuccess (billOf "online") |},
     storeOf "online")
  /\
  GET (R := brokenReadEnv) (fetchBill (Some "31")) (storeOf "online")
  = (Returned {| g_status := 500;
                 g_payload := GetFailure "Failed to fetch bill" |},
     storeOf "online")
  /\
  GET (R := storeReadEnv) (fetchBill (Some "")) (storeOf "online")
  = (Returned {| g_status := 400;
                 g_payload := GetError "Bill ID is required" |},
     storeOf "online").
Proof.
  split; [|split].
  - rewrite (proj2 (GET_answers storeReadEnv (fetchBill (Some "31"))
                      (storeOf "online") (storeOf "online")
                      {| user_id := "7" |} (Some "31") eq_refl eq_refl)
                   eq_refl).
    reflexivity.
  - rewrite (proj2 (GET_answers brokenReadEnv (fetchBill (Some "31"))
                      (storeOf "online") (storeOf "online")
                      {| user_id := "7" |} (Some "31") eq_refl eq_refl)
                   eq_refl).
    reflexivity.
  - apply (proj1 (GET_answers storeReadEnv (fetchBill (Some ""))
                    (storeOf "online") (storeOf "online")
                    {| user_id := "7" |} (Some "") eq_refl eq_refl)).
    reflexivity.
Defined.

End HandlerCoverage.

(* ===================================================================== *)
(** * More on the delivery client and the composer                        *)
(* ===================================================================== *)

Module DeliveryCoverage.
Import Js JsFacts WhatsApp Instrumented Doubles.

Lemma string_app_assoc (a b c : string) : (a ++ b) ++ c = a ++ b ++ c.
Proof.
  induction a as [|x a IH]; [reflexivity|].
  change (String x ((a ++ b) ++ c) = String x (a ++ b ++ c)).
  f_equal. exact IH.
Qed.

Lemma strip_app (a b : string) :
  stripNonDigits (a ++ b) = stripNonDigits a ++ stripNonDigits b.
Proof.
  induction a as [|x a IH]; [reflexivity|].
  change (stripNonDigits (String x a ++ b))
    with (if isDigit x then String x (stripNonDigits (a ++ b))
          else stripNonDigits (a ++ b)).
  change (stripNonDigits (String x a))
    with (if isDigit x then String x (stripNonDigits a)
          else stripNonDigits a).
  destruct (isDigit x); [|exact IH].
  change (String x (stripNonDigits (a ++ b))
          = String x (stripNonDigits a ++ stripNonDigits b)).
  f_equal. exact IH.
Qed.

Lemma strip_digits_only (s : string) : allDigits (stripNonDigits s) = true.
Proof.
  induction s as [|x s IH]; simpl; [reflexivity|].
  destruct (isDigit x) eqn:Hx; simpl; [rewrite Hx|]; exact IH.
Qed.

Lemma strip_fixes_digits (s : string) :
  allDigits s = true -> stripNonDigits s = s.
Proof.
  induction s as [|x s IH]; simpl; [reflexivity|].
  intros H. apply andb_prop in H as [Hx Hs]. rewrite Hx, (IH Hs).
  reflexivity.
Qed.

(** X17: Phone normalization keeps the digits, in their order, and nothing
    else: the result has digits only, is never longer than the input, and
    normalizing a text made of two parts is normalizing each part (so
    spaces, dashes and a leading + may stand anywhere). *)
Theorem phone_normalization (a b : string) :
  allDigits (stripNonDigits a) = true /\
  (String.length (stripNonDigits a) <= String.length a)%nat /\
  stripNonDigits (a ++ b) = stripNonDigits a ++ stripNonDigits b.
Proof.
  split; [apply strip_digits_only|]. split; [|apply strip_app].
  induction a as [|x a IH]; simpl; [lia|].
  destruct (isDigit x); simpl; lia.
Qed.

(** X18: Normalizing twice is normalizing once, and a text of digits only is
    left as it is. *)
Theorem phone_normalization_idempotent (s : string) :
  stripNonDigits (stripNonDigits s) = stripNonDigits s /\
  (allDigits s = true -> stripNonDigits s = s).
Proof.
  split; [|apply strip_fixes_digits].
  apply strip_fixes_digits, strip_digits_only.
Qed.

Lemma phone_normalization_idempotent_witness :
  stripNonDigits "919876543210" = "919876543210".
Proof.
  apply (proj2 (phone_normalization_idempotent "919876543210")).
  reflexivity.
Defined.

Section Generic.
Context {W Num Json : Type} {T : Text Num} (P : Provider W Num Json).

(** X19: One delivery call contacts the provider at most once, and only
    after the token provider returned, for the organisation of the bill,
    a token that is not empty, and with a phone of at least 10 digits:
    the request then goes by POST to the fixed URL, as JSON, with 'Bearer '
    followed by that very token as authorization and a body of type 'text'
    whose phone is the phone of the bill reduced to its digits.  A success
    result is returned only after such a request. *)
Theorem provider_contacted_at_most_once
        (p : BillingWhatsAppParams Num) (w : W) :
  exists r w' posted,
    sendBillingWhatsApp (P := posting P) p (w, []) = (Returned r, (w', posted)) /\
    sendBillingWhatsApp p w = (Returned r, w') /\
    (posted = [] \/
     exists token w1 req,
       getValidAccessToken (organisationId p) w
       = (Returned (Some token), w1) /\
       token <> "" /\
       posted = [req] /\
       fr_url req = "https://app.gowhatsapp.in/api/v2/message/send" /\
       fr_method req = "POST" /\
       fr_contentType req = "application/json" /\
       fr_authorization req = "Bearer " ++ token /\
       mb_type (fr_body req) = "text" /\
       mb_phone (fr_body req) = stripNonDigits (phone p) /\
       allDigits (mb_phone (fr_body req)) = true /\
       (10 <= String.length (mb_phone (fr_body req)))%nat) /\
    (success r = true -> posted <> []).
Proof.
  unfold sendBillingWhatsApp, tryCatch, sendBillingWhatsApp_try,
    sendBillingWhatsApp_catch, bind, lift, throw, ret, gets.
  cbn [getValidAccessToken fetch message_id now posting].
  unfold Tracking.noting. cbn [fst snd app].
  destruct (getValidAccessToken (organisationId p) w) as [[tok | e] w1];
    cbn [fst snd app];
    [|eexists _, _, _; repeat split; try reflexivity;
      [left; reflexivity | discriminate]].
  destruct (truthy tok) eqn:Htok; cbn [negb fst snd app];
    [|eexists _, _, _; repeat split; try reflexivity;
      [left; reflexivity | discriminate]].
  destruct (splitAddressIntoThreeParts (address p)) as [[[l1 l2] l3] | e];
    cbn [fst snd app];
    [|eexists _, _, _; repeat split; try reflexivity;
      [left; reflexivity | discriminate]].
  destruct (Nat.ltb_spec (String.length (stripNonDigits (phone p))) 10)
    as [Hshort | Hlong]; cbn [fst snd app];
    [eexists _, _, _; repeat split; try reflexivity;
     [left; reflexivity | discriminate]|].
  assert (Hreq : exists token w1' req,
             (Returned tok, w1)
             = (@Returned (option string) (Some token), w1') /\
             token <> "" /\
             [billingRequest tok (stripNonDigits (phone p))
                             (billingMessage p l1 l2 l3)] = [req] /\
             fr_url req = "https://app.gowhatsapp.in/api/v2/message/send" /\
             fr_method req = "POST" /\
             fr_contentType req = "application/json" /\
             fr_authorization req = "Bearer " ++ token /\
             mb_type (fr_body req) = "text" /\
             mb_phone (fr_body req) = stripNonDigits (phone p) /\
             allDigits (mb_phone (fr_body req)) = true /\
             (10 <= String.length (mb_phone (fr_body req)))%nat).
  { destruct tok as [token|]; [|discriminate Htok].
    exists token, w1. eexists. split; [reflexivity|].
    split; [intros ->; discriminate Htok|].
    split; [reflexivity|]. cbn.
    repeat split; try reflexivity; try exact Hlong.
    apply strip_digits_only. }
  destruct (fetch _ w1) as [[res | e] w2]; cbn [fst snd app];
    [|eexists _, _, _; repeat split; try reflexivity;
      [right; exact Hreq | discriminate]].
  destruct (res_ok res); cbn [negb fst snd app].
  - destruct (res_json res) as [j | e]; cbn [fst snd app];
      [|eexists _, _, _; repeat split; try reflexivity;
        [right; exact Hreq | discriminate]].
    destruct (message_id j) as [mid | e]; cbn [fst snd app];
      eexists _, _, _; repeat split; try reflexivity;
      try (right; exact Hreq); discriminate.
  - destruct (res_text res) as [txt | e]; cbn [fst snd app];
      eexists _, _, _; repeat split; try reflexivity;
      try (right; exact Hreq); discriminate.
Qed.

(** X20: The message [sendBillingWhatsApp] puts in the body of the request
    it posts is the message [formatBillingMessage] returns for the same
    bill (the bill number printed, the other fields as they are) under
    the default template, or any tag other than 'compact' and 'detailed':
    the template of line 49 and the template of line 177 give the same
    text. *)
Theorem sent_message_is_default_template
        (clock : Clock) (p : BillingWhatsAppParams Num)
        (tag : option string) (w : W) res w' posted req :
  tag <> Some "compact" ->
  tag <> Some "detailed" ->
  sendBillingWhatsApp (P := posting P) p (w, []) = (res, (w', posted)) ->
  In req posted ->
  formatBillingMessage clock (asFormatParams p tag)
  = Returned (mb_message (fr_body req)).
Proof.
  intros Hc Hd.
  rewrite (ComposerFacts.format_default_branch clock (asFormatParams p tag))
    by assumption.
  cbn [asFormatParams f_address f_companyName f_billNo f_products f_amount
       f_shippingMethod].
  unfold sendBillingWhatsApp, tryCatch, sendBillingWhatsApp_try,
    sendBillingWhatsApp_catch, bind, lift, throw, ret, gets.
  cbn [getValidAccessToken fetch message_id now posting].
  unfold Tracking.noting. cbn [fst snd app].
  destruct (getValidAccessToken (organisationId p) w) as [[tok | e] w1];
    cbn [fst snd app];
    [|intros Hrun; injection Hrun as _ _ <-; intros []].
  destruct (truthy tok); cbn [negb fst snd app];
    [|intros Hrun; injection Hrun as _ _ <-; intros []].
  destruct (splitAddressIntoThreeParts (address p)) as [[[l1 l2] l3] | e];
    cbn [fst snd app];
    [|intros Hrun; injection Hrun as _ _ <-; intros []].
  assert (Hsame : forall posted',
             In req posted' ->
             posted' = [billingRequest tok (stripNonDigits (phone p))
                                       (billingMessage p l1 l2 l3)] ->
             Returned
               (defaultMessage (companyName p) (numToString (billNo p))
                  (products p) (numToString (amount p))
                  (shippingLineOf (shippingMethod p)) l1 l2 l3)
             = Returned (mb_message (fr_body req))).
  { intros posted' Hin ->. destruct Hin as [<- | []]. reflexivity. }
  destruct (String.length (stripNonDigits (phone p)) <? 10)%nat;
    cbn [fst snd app];
    [intros Hrun; injection Hrun as _ _ <-; intros []|].
  destruct (fetch _ w1) as [[reply | e] w2]; cbn [fst snd app];
    [|intros Hrun Hin; injection Hrun as _ _ <-;
      exact (Hsame _ Hin eq_refl)].
  destruct (res_ok reply); cbn [negb fst snd app].
  - destruct (res_json reply) as [j | e]; cbn [fst snd app];
      [|intros Hrun Hin; injection Hrun as _ _ <-;
        exact (Hsame _ Hin eq_refl)].
    destruct (message_id j) as [mid | e]; cbn [fst snd app];
      intros Hrun Hin; injection Hrun as _ _ <-;
      exact (Hsame _ Hin eq_refl).
  - destruct (res_text reply) as [txt | e]; cbn [fst snd app];
      intros Hrun Hin; injection Hrun as _ _ <-;
      exact (Hsame _ Hin eq_refl).
Qed.

End Generic.

Lemma contains_here (x rest : string) : contains (x ++ rest) x.
Proof. exists "", rest. reflexivity. Qed.

Lemma contains_last (x : string) : contains x x.
Proof.
  exists "", "". change (x = x ++ "").
  induction x as [|c x IH]; [reflexivity|].
  change (String c x = String c (x ++ "")). f_equal. exact IH.
Qed.

Lemma contains_later (a rest x : string) :
  contains rest x -> contains (a ++ rest) x.
Proof.
  intros (before & after & ->). exists (a ++ before), after.
  symmetry. apply string_app_assoc.
Qed.

(** Find [x] among the parts of a message written [a1 ++ a2 ++ ...]. *)
Ltac find_part :=
  repeat first [apply contains_here | apply contains_last
               | apply contains_later].

Section Messages.
Context {Num : Type} {T : Text Num}.

(** X21: The compact message leaves the items out: two bills that differ in
    their product lists only get the same compact message, on any day. *)
Theorem compact_ignores_products (clock1 clock2 : Clock)
        (p q : FormatParams Num) :
  f_template p = Some "compact" ->
  f_template q = Some "compact" ->
  f_companyName p = f_companyName q ->
  f_billNo p = f_billNo q ->
  f_amount p = f_amount q ->
  f_address p = f_address q ->
  f_shippingMethod p = f_shippingMethod q ->
  formatBillingMessage clock1 p = formatBillingMessage clock2 q.
Proof.
  intros Hp Hq Hname Hbill Hamount Haddress Hshipping.
  unfold formatBillingMessage.
  rewrite Hp, Hq, Hname, Hbill, Hamount, Haddress, Hshipping.
  reflexivity.
Qed.

(** X22: Whenever the address splitter returns, the message composed, in each
    of the three variants, contains the company name, the bill number, the
    amount, the shipping line and the first address line; outside the
    compact variant it also contains the product list and the other two
    address lines. *)
Theorem message_carries_bill_facts (clock : Clock) (p : FormatParams Num)
        (line1 line2 line3 : string) :
  splitAddressIntoThreeParts (f_address p) = Returned (line1, line2, line3) ->
  exists msg,
    formatBillingMessage clock p = Returned msg /\
    contains msg (f_companyName p) /\
    contains msg (f_billNo p) /\
    contains msg (numToString (f_amount p)) /\
    contains msg (shippingLineOf (f_shippingMethod p)) /\
    contains msg line1 /\
    (f_template p <> Some "compact" ->
     contains msg (f_products p) /\ contains msg line2 /\ contains msg line3).
Proof.
  intros Hsplit. unfold formatBillingMessage. rewrite Hsplit.
  destruct (String.eqb (default "default" (f_template p)) "compact") eqn:Ec.
  - eexists. split; [reflexivity|].
    do 5 (split; [find_part|]).
    intros Hne. exfalso. apply String.eqb_eq in Ec.
    destruct (f_template p) as [t|]; simpl in Ec;
      [subst t; contradiction | discriminate Ec].
  - destruct (String.eqb (default "default" (f_template p)) "detailed");
      eexists; (split; [reflexivity|]); unfold defaultMessage;
      do 5 (split; [find_part|]); intros _;
      repeat split; find_part.
Qed.

End Messages.

Lemma sent_message_is_default_template_witness :
  formatBillingMessage (T := zText) nextDay
    (asFormatParams (T := zText) (billFor "+91 98765-43210") None)
  = Returned
      (mb_message
         (fr_body
            (billingRequest (Some "token-1") "919876543210"
               (billingMessage (T := zText) (billFor "+91 98765-43210")
                               "12 Main Road, Trichy" "" "")))).
Proof.
  apply (sent_message_is_default_template (T := zText) scriptedProvider
           nextDay (billFor "+91 98765-43210") None
           (providerWith (Some "token-1") [okReply "wamid.1"])
           (Returned (SendOk "wamid.1" (Some "wamid.1")))
           {| pw_clock := noon; pw_token := Some "token-1";
              pw_replies := [];
              pw_posted :=
                [billingRequest (Some "token-1") "919876543210"
                   (billingMessage (T := zText) (billFor "+91 98765-43210")
                                   "12 Main Road, Trichy" "" "")];
              pw_slept := [] |}
           [billingRequest (Some "token-1") "919876543210"
              (billingMessage (T := zText) (billFor "+91 98765-43210")
                              "12 Main Road, Trichy" "" "")]);
    [discriminate | discriminate | reflexivity | left; reflexivity].
Defined.

Lemma compact_ignores_products_witness :
  formatBillingMessage (T := zText) noon (invoice (Some "compact"))
  = formatBillingMessage (T := zText) nextDay
      {| f_companyName := "Veda";
         f_billNo := "31";
         f_products := "Shampoo x1";
         f_amount := 450%Z;
         f_address := "12 Main Road, Trichy";
         f_shippingMethod :=
           Some {| sm_name := "Speed"; sm_type := "air"; sm_cost := 40%Z |};
         f_template := Some "compact" |}.
Proof.
  apply (compact_ignores_products (T := zText)); reflexivity.
Defined.

Lemma message_carries_bill_facts_witness :
  exists msg,
    formatBillingMessage (T := zText) noon (invoice (Some "detailed"))
    = Returned msg /\
    contains msg "450" /\ contains msg "Soap x2".
Proof.
  destruct (message_carries_bill_facts (T := zText) noon
              (invoice (Some "detailed")) "12 Main Road, Trichy" "" ""
              eq_refl)
    as (msg & Hmsg & _ & _ & Hamount & _ & _ & Hrest).
  exists msg. split; [exact Hmsg|]. split; [exact Hamount|].
  apply Hrest. discriminate.
Defined.

End DeliveryCoverage.

(* ===================================================================== *)
(** * More on the retry wrapper                                           *)
(* ===================================================================== *)

Module RetryCoverage.
Import Js JsFacts WhatsApp Instrumented Doubles.
Local Open Scope list_scope.

Lemma filter_keeps_all {A} (f : A -> bool) (l : list A) :
  (forall x, In x l -> f x = true) -> List.filter f l = l.
Proof.
  induction l as [|x l IH]; intros H; [reflexivity|].
  simpl. rewrite (H x) by (left; reflexivity).
  rewrite IH; [reflexivity|]. intros y Hy. apply H. right. exact Hy.
Qed.

(** The attempts that are followed by a wait are all but the last. *)
Lemma attempts_before_last (maxRetries : Z) :
  (1 <= maxRetries)%Z ->
  List.filter (fun attempt => (attempt <? maxRetries)%Z) (seqZ 1 maxRetries)
  = seqZ 1 (maxRetries - 1).
Proof.
  intros Hpos.
  assert (Hsplit : seqZ 1 maxRetries
                   = seqZ 1 (maxRetries - 1) ++ [maxRetries]).
  { replace maxRetries with ((maxRetries - 1) + 1)%Z at 1 by lia.
    rewrite seqZ_app by lia.
    rewrite (seqZ_cons (1 + (maxRetries - 1)) 1) by lia.
    rewrite (seqZ_nil _ (Z.pred 1)) by lia.
    replace (1 + (maxRetries - 1))%Z with maxRetries by lia.
    reflexivity. }
  rewrite Hsplit, List.filter_app, filter_keeps_all.
  - simpl. rewrite Z.ltb_irrefl. apply app_nil_r.
  - intros x Hx. apply list_elem_of_In, elem_of_seqZ in Hx.
    apply Z.ltb_lt. lia.
Qed.

Section Generic.
Context {W Json : Type}.
Variable sleep : Delay -> W -> W.
Variable send : M W (SendResult Json).
Variable maxRetries : Z.

Lemma retry_waits (attempts : list Z) :
  forall (le : LastError) (w : W) (waited : list Delay),
    exists res w' more,
      retryLoop (timing sleep) (untimed send) maxRetries attempts le
                (w, waited)
      = (res, (w', waited ++ more)) /\
      sublist more
        (map backoffDelay
             (List.filter (fun a => (a <? maxRetries)%Z) attempts)) /\
      ((forall v, exists r v', send v = (Returned r, v') /\ success r = false) ->
       more = map backoffDelay
                  (List.filter (fun a => (a <? maxRetries)%Z) attempts)).
Proof.
  induction attempts as [|attempt rest IH]; intros le w waited.
  - exists (Thrown (terminalError maxRetries le)), w, [].
    rewrite app_nil_r. split; [reflexivity|].
    split; [constructor | reflexivity].
  - rewrite RetryFacts.retryLoop_cons.
    unfold attemptOnce, tryCatch, bind, untimed, timing, Tracking.noting, ret.
    cbn [fst snd]. rewrite app_nil_r.
    destruct (send w) as [[r | e] w1] eqn:Hsend.
    + destruct (success r) eqn:Hs.
      * exists (Returned r), w1, []. rewrite app_nil_r.
        split; [reflexivity|]. split; [apply sublist_nil_l|].
        intros Hfail. destruct (Hfail w) as (r' & v' & Hr & Hs').
        rewrite Hsend in Hr. injection Hr as <- _.
        rewrite Hs in Hs'. discriminate Hs'.
      * cbn [List.filter]. destruct (attempt <? maxRetries)%Z.
        -- cbn [fst snd].
           destruct (IH (errorOf r) (sleep (backoffDelay attempt) w1)
                        (waited ++ [backoffDelay attempt]))
             as (res & w' & more & Hrun & Hsub & Hexact).
           exists res, w', (backoffDelay attempt :: more).
           rewrite <- app_assoc in Hrun. split; [exact Hrun|].
           split; [apply sublist_skip, Hsub|].
           intros Hfail. rewrite (Hexact Hfail). reflexivity.
        -- destruct (IH (errorOf r) w1 waited)
             as (res & w' & more & Hrun & Hsub & Hexact).
           exists res, w', more. split; [exact Hrun|].
           split; [exact Hsub | exact Hexact].
    + destruct (IH (LastThrown e) w1 waited)
        as (res & w' & more & Hrun & Hsub & Hexact).
      exists res, w', more. split; [exact Hrun|]. split.
      * cbn [List.filter]. destruct (attempt <? maxRetries)%Z;
          [apply sublist_cons|]; exact Hsub.
      * intros Hfail. destruct (Hfail w) as (r' & v' & Hr & _).
        rewrite Hsend in Hr. discriminate Hr.
Qed.

(** X23: For a whole attempt limit from 1 to [Number.MAX_SAFE_INTEGER], the
    waits between attempts follow the schedule 2 s, 4 s, 8 s, ...: the
    delays handed to the timer are, in order, among those of the attempts
    1 to [maxRetries - 1], so there is never a wait after the last
    attempt; when every attempt comes back with a failure result, they
    are exactly these.  The delay of an attempt is [2 ** attempt * 1000]
    milliseconds up to attempt 1014, and [Infinity] from attempt 1015 on,
    where the product overflows. *)
Theorem backoff_schedule (w : W) :
  (1 <= maxRetries <= MAX_SAFE_INTEGER)%Z ->
  exists res w' waits,
    retryWith (timing sleep) (untimed send) maxRetries (w, [])
    = (res, (w', waits)) /\
    sublist waits (backoffDelays (maxRetries - 1)) /\
    ((forall v, exists r v', send v = (Returned r, v') /\ success r = false) ->
     waits = backoffDelays (maxRetries - 1)).
Proof.
  intros [Hpos _]. unfold retryWith, backoffDelays.
  destruct (retry_waits (seqZ 1 maxRetries) LastUndefined w [])
    as (res & w' & more & Hrun & Hsub & Hexact).
  rewrite (attempts_before_last maxRetries Hpos) in Hsub, Hexact.
  exists res, w', more. split; [exact Hrun|].
  split; [exact Hsub | exact Hexact].
Qed.


(** X25: When the first attempt delivers, the wrapper is the delivery call: the
    same result, the same world, no wait. *)
Theorem retry_first_attempt_delivers (w w' : W) (r : SendResult Json) :
  (1 <= maxRetries)%Z ->
  send w = (Returned r, w') ->
  success r = true ->
  retryWith sleep send maxRetries w = (Returned r, w').
Proof.
  intros Hpos Hsend Hs. unfold retryWith.
  rewrite seqZ_cons by lia. rewrite RetryFacts.retryLoop_cons.
  unfold attemptOnce, tryCatch, bind, ret. rewrite Hsend, Hs. reflexivity.
Qed.


End Generic.

Section Real.
Context {W Num Json : Type} {T : Text Num} {P : Provider W Num Json}.


End Real.

Lemma backoff_schedule_witness :
  exists res w',
    retryWith (timing noSleep) (untimed playback) 3
              ([Returned (failedOnce "timeout");
                Returned (failedOnce "timeout");
                Returned delivered], [])
    = (res, (w', [Millis 2000; Millis 4000])).
Proof.
  destruct (backoff_schedule noSleep playback 3
              [Returned (failedOnce "timeout");
               Returned (failedOnce "timeout");
               Returned delivered])
    as (res & w' & waits & Hrun & _ & _); [unfold MAX_SAFE_INTEGER; lia|].
  exists res, w'. rewrite Hrun. vm_compute in Hrun.
  injection Hrun as <- <- <-. reflexivity.
Defined.


Lemma retry_first_attempt_delivers_witness :
  retryWith noSleep playback 3 [Returned delivered] = (Returned delivered, []).
Proof.
  apply (retry_first_attempt_delivers noSleep playback 3
           [Returned delivered] [] delivered); [lia | reflexivity | reflexivity].
Defined.


Example backoff_overflows :
  backoffDelay 3 = Millis 8000 /\ backoffDelay 1015 = InfiniteDelay.
Proof. split; reflexivity. Qed.

End RetryCoverage.
